(** * frc-motion-calc: the kinematics and statistics engine

    A shallow embedding of [src/calculate_stats.js]: the three finite
    difference stages ([calculateDistances], [calculateSpeeds],
    [calculateAccelerations]) and the exported function that fills the
    module level [stats] object and the chart data of every match; and of
    the handlers of [src/get_data.js] that shape the telemetry of a match
    and collect the fetched matches.

    JavaScript numbers are IEEE 754 binary64 values; they are modelled by
    Rocq's primitive floats, whose operations are the same binary64
    operations. *)

From Stdlib Require Import ZArith List Bool Lia Floats Uint63 String.
Import ListNotations.

Set Implicit Arguments.

(* Decimal literals denote the closest binary64 value, as they do in the
   source language. *)
Set Warnings "-inexact-float".

(** ** The part of the language the program relies on *)

Module JS.

Local Open Scope float_scope.

(** A JSON coordinate is a number or [null] ([None]). [ToNumber] is the
    coercion the subtraction operator applies to it. *)
Definition ToNumber (v : option float) : float :=
  match v with
  | Some n => n
  | None => 0
  end.

(** [v !== null] *)
Definition not_null (v : option float) : bool :=
  match v with
  | Some _ => true
  | None => false
  end.

(** The number of an integer of magnitude below 2^63. *)
Definition of_Z (q : Z) : float :=
  if (q <? 0)%Z then - of_uint63 (Uint63.of_Z (Z.abs q))
  else of_uint63 (Uint63.of_Z q).

(** [array.length] as a number. *)
Definition length_of {A : Type} (l : list A) : float :=
  of_Z (Z.of_nat (List.length l)).

(** [Math.round]: a value that is not finite, or is integral, is returned
    as it is; otherwise the result is the integer closest to the argument,
    the one towards +infinity on a tie, which is [floor (x + 1/2)] computed
    exactly. A zero result keeps the sign of the argument. *)
Definition Math_round (x : float) : float :=
  match Prim2SF x with
  | S754_finite s m e =>
      if (0 <=? e)%Z then x
      else
        let n := (if s then Z.neg m else Z.pos m) in
        let q := ((2 * n + 2 ^ (- e)) / 2 ^ (1 - e))%Z in
        if (q =? 0)%Z then (if s then neg_zero else zero) else of_Z q
  | _ => x
  end.

Definition is_pos_zero (x : float) : bool :=
  match classify x with
  | PZero => true
  | _ => false
  end.

Definition is_neg_zero (x : float) : bool :=
  match classify x with
  | NZero => true
  | _ => false
  end.

(** [Math.max(...l)]: the loop of the language definition, started at
    -infinity; a NaN argument makes the result NaN. *)
Fixpoint max_loop (highest : float) (l : list float) : float :=
  match l with
  | [] => highest
  | number :: rest =>
      if is_nan number then nan
      else if is_pos_zero number && is_neg_zero highest then max_loop zero rest
      else if highest <? number then max_loop number rest
      else max_loop highest rest
  end.

Definition Math_max (l : list float) : float := max_loop neg_infinity l.

(** [Math.min(...l)], started at +infinity. *)
Fixpoint min_loop (lowest : float) (l : list float) : float :=
  match l with
  | [] => lowest
  | number :: rest =>
      if is_nan number then nan
      else if is_neg_zero number && is_pos_zero lowest then min_loop neg_zero rest
      else if number <? lowest then min_loop number rest
      else min_loop lowest rest
  end.

Definition Math_min (l : list float) : float := min_loop infinity l.

(** [Math.sqrt] and [Math.pow] are left to the engine by the language
    definition (an approximation of the exact result): the program is
    modelled over any engine. *)
Class Engine : Type := {
  Math_sqrt : float -> float;
  Math_pow : float -> float -> float
}.

(** [array.map(callback)] with a callback that also receives the index. *)
Fixpoint map_from {A B : Type} (f : A -> nat -> B) (i : nat) (l : list A) : list B :=
  match l with
  | [] => []
  | a :: rest => f a i :: map_from f (S i) rest
  end.

Definition Array_map {A B : Type} (f : A -> nat -> B) (l : list A) : list B :=
  map_from f 0 l.

(** [array.filter(Boolean)] on an array of objects and [undefined]s: an
    object is truthy, [undefined] ([None]) is not. *)
Fixpoint filter_Boolean {A : Type} (l : list (option A)) : list A :=
  match l with
  | [] => []
  | Some a :: rest => a :: filter_Boolean rest
  | None :: rest => filter_Boolean rest
  end.

(** Values of the properties of a chart tuple, and objects as lists of
    properties in insertion order. *)
Inductive value : Type :=
| Num (n : float)
| Str (s : string).

Definition object : Type := list (string * value).

(** Exceptions and completions. *)
Inductive exn : Type :=
| TypeError (message : string).

Inductive completion (A : Type) : Type :=
| Normal (a : A)
| Throw (e : exn).

Arguments Normal {A} a.
Arguments Throw {A} e.

(** [array.reduce(callback)] without an initial value: the first element
    starts the accumulation, and an empty array is a [TypeError]. *)
Definition reduce {A : Type} (f : A -> A -> A) (l : list A) : completion A :=
  match l with
  | [] => Throw (TypeError "Reduce of empty array with no initial value")
  | a :: rest => Normal (fold_left f rest a)
  end.

End JS.

Import JS.
Local Open Scope float_scope.

(** ** Data of the program *)

(** A position sample of the telemetry: [{time, x, y}]. *)
Module Point.
Record t : Type := make { time : float; x : option float; y : option float }.
End Point.

(** [{timestamp, time, distance}]; [time] is the duration of the segment. *)
Module Distance.
Record t : Type := make { timestamp : float; time : float; distance : float }.
End Distance.

(** [{timestamp, speed}] *)
Module Speed.
Record t : Type := make { timestamp : float; speed : float }.
End Speed.

(** [{timestamp, time, acceleration}] *)
Module Acceleration.
Record t : Type := make { timestamp : float; time : float; acceleration : float }.
End Acceleration.

(** A record handed over by the acquisition: [{match, team, points}]. *)
Module Match.
Record t : Type := make { match_ : string; team : float; points : list Point.t }.
End Match.

(** An element of [stats.individual_matches]. *)
Module MatchStats.
Record t : Type := make {
  match_ : string;
  team : float;
  maxSpeed_fps : float;
  avgSpeed_fps : float;
  maxAccel_fpsps : float;
  maxBrake_fpsps : float
}.
End MatchStats.

(** The [stats] object; a property that was not assigned yet is [None]. *)
Module Stats.
Record t : Type := make {
  individual_matches : list MatchStats.t;
  maxSpeed_fps : option float;
  avgMaxSpeed_fps : option float;
  avgSpeed_fps : option float;
  maxAccel_fpsps : option float;
  avgMaxAccel_fpsps : option float;
  maxBrake_fpsps : option float;
  avgMaxBrake_fpsps : option float
}.
End Stats.

(** What the program can change: the [stats] object, the [values] array
    of the shared chart configuration, the charts handed to the renderer
    (match, team, values) and the content written to [stats.json]. *)
Record World : Type := mkWorld {
  stats : Stats.t;
  chartConf_values : list object;
  charts : list (string * float * list object);
  stats_json : option Stats.t
}.

(** [let stats = { individual_matches: [] }] and [values: []] *)
Definition stats_init : Stats.t :=
  Stats.make [] None None None None None None None.

Definition world_init : World := mkWorld stats_init [] [] None.

(** ** A state and exception monad for the exported function *)

Definition M (A : Type) : Type := World -> World * completion A.

Definition ret {A : Type} (a : A) : M A := fun w => (w, Normal a).

Definition bind {A B : Type} (c : M A) (k : A -> M B) : M B :=
  fun w =>
    match c w with
    | (w', Normal a) => k a w'
    | (w', Throw e) => (w', Throw e)
    end.

Definition lift {A : Type} (c : completion A) : M A := fun w => (w, c).

Definition update (f : World -> World) : M unit := fun w => (f w, Normal tt).

Definition read {A : Type} (f : World -> A) : M A := fun w => (w, Normal (f w)).

Declare Scope js_scope.
Delimit Scope js_scope with js.
Notation "x <- c ;; k" := (bind c (fun x => k))
  (at level 61, c at next level, right associativity) : js_scope.
Notation "c ;; k" := (bind c (fun _ => k))
  (at level 61, right associativity) : js_scope.

(** [array.forEach(callback)] *)
Fixpoint forEach {A : Type} (l : list A) (f : A -> M unit) : M unit :=
  match l with
  | [] => ret tt
  | a :: rest => bind (f a) (fun _ => forEach rest f)
  end.

(** ** The derivation stages *)

(** [Math.round(v * 10)/10] and [Math.round(v * 100)/100] *)
Definition round_tenths (v : float) : float := Math_round (v * 10) / 10.

Definition round_hundredths (v : float) : float := Math_round (v * 100) / 100.

Section Program.

Context {E : Engine}.

(** The elements of the arrays are objects, which are truthy, so the test
    [point && _points[i + 1]] is decided by the presence of the element at
    index [i + 1]. *)
Definition calculateDistances (_points : list Point.t) : list Distance.t :=
  filter_Boolean
    (Array_map
       (fun point i =>
          match nth_error _points (i + 1) with
          | Some p2 =>
              let p1 := point in
              let distance :=
                Math_sqrt
                  (Math_pow (ToNumber (Point.x p2) - ToNumber (Point.x p1)) 2
                   + Math_pow (ToNumber (Point.y p2) - ToNumber (Point.y p1)) 2) in
              let time := Point.time p2 - Point.time p1 in
              Some (Distance.make (Point.time p1) (round_tenths time) distance)
          | None => None
          end)
       _points).

Definition calculateSpeeds (_distances : list Distance.t) : list Speed.t :=
  filter_Boolean
    (Array_map
       (fun dist i =>
          match nth_error _distances (i + 1) with
          | Some _ =>
              let speed := Distance.distance dist / Distance.time dist in
              Some (Speed.make (Distance.timestamp dist) (round_hundredths speed))
          | None => None
          end)
       _distances).

Definition calculateAccelerations (_speeds : list Speed.t) : list Acceleration.t :=
  filter_Boolean
    (Array_map
       (fun speed i =>
          match nth_error _speeds (i + 1) with
          | Some s2 =>
              let s1 := speed in
              let acceleration := Speed.speed s2 - Speed.speed s1 in
              let time := Speed.timestamp s2 - Speed.timestamp s1 in
              Some (Acceleration.make (Speed.timestamp s1) (round_tenths time)
                      (round_hundredths acceleration))
          | None => None
          end)
       _speeds).

(** ** The exported function *)

(** [match.points.filter(point => point.x !== null && point.y !== null)] *)
Definition filteredPoints (m : Match.t) : list Point.t :=
  filter (fun point => not_null (Point.x point) && not_null (Point.y point))
    (Match.points m).

(** [speeds.map(s => ({x: s.timestamp, y: s.speed, c: 0}))] *)
Definition speedData (speeds : list Speed.t) : list object :=
  map (fun s => [("x", Num (Speed.timestamp s)); ("y", Num (Speed.speed s));
                 ("c", Num 0)]%string) speeds.

(** [accelerations.map(a => ({x: a.timestamp, y: a.acceleration, c: 1}))] *)
Definition AccelData (accelerations : list Acceleration.t) : list object :=
  map (fun a => [("x", Num (Acceleration.timestamp a));
                 ("y", Num (Acceleration.acceleration a)); ("c", Num 1)]%string)
    accelerations.

Definition push_match (entry : MatchStats.t) (w : World) : World :=
  let s := stats w in
  mkWorld
    (Stats.make (Stats.individual_matches s ++ [entry]) (Stats.maxSpeed_fps s)
       (Stats.avgMaxSpeed_fps s) (Stats.avgSpeed_fps s) (Stats.maxAccel_fpsps s)
       (Stats.avgMaxAccel_fpsps s) (Stats.maxBrake_fpsps s)
       (Stats.avgMaxBrake_fpsps s))
    (chartConf_values w) (charts w) (stats_json w).

(** [chart.data[0].values = values]: [chart] is a shallow copy of
    [chartConf], so the assignment lands in the shared configuration. *)
Definition set_values (values : list object) (w : World) : World :=
  mkWorld (stats w) values (charts w) (stats_json w).

(** [new vega.View(vega.parse(chart), ...)] for the chart of a match. The
    SVG file is written later, by the callback of a promise; that write is
    not part of the model. *)
Definition render (m : Match.t) (w : World) : World :=
  mkWorld (stats w) (chartConf_values w)
    (charts w ++ [(Match.match_ m, Match.team m, chartConf_values w)])
    (stats_json w).

Local Open Scope js_scope.

(** The callback of [data.forEach]. The properties of the pushed object
    are evaluated in the order they are written. *)
Definition calculate_match (m : Match.t) : M unit :=
  let distances := calculateDistances (filteredPoints m) in
  let speeds := calculateSpeeds distances in
  let accelerations := calculateAccelerations speeds in
  let maxSpeed := Math_max (map Speed.speed speeds) in
  total <- lift (reduce PrimFloat.add (map Speed.speed speeds)) ;;
  let avgSpeed := Math_round (total / length_of speeds * 100) / 100 in
  let maxAccel := Math_max (map Acceleration.acceleration accelerations) in
  let maxBrake := Math_min (map Acceleration.acceleration accelerations) in
  update (push_match
            (MatchStats.make (Match.match_ m) (Match.team m) maxSpeed avgSpeed
               maxAccel maxBrake)) ;;
  update (set_values (speedData speeds ++ AccelData accelerations)) ;;
  update (render m).

Definition set_maxSpeed (v : float) (w : World) : World :=
  let s := stats w in
  mkWorld
    (Stats.make (Stats.individual_matches s) (Some v) (Stats.avgMaxSpeed_fps s)
       (Stats.avgSpeed_fps s) (Stats.maxAccel_fpsps s) (Stats.avgMaxAccel_fpsps s)
       (Stats.maxBrake_fpsps s) (Stats.avgMaxBrake_fpsps s))
    (chartConf_values w) (charts w) (stats_json w).

Definition set_avgMaxSpeed (v : float) (w : World) : World :=
  let s := stats w in
  mkWorld
    (Stats.make (Stats.individual_matches s) (Stats.maxSpeed_fps s) (Some v)
       (Stats.avgSpeed_fps s) (Stats.maxAccel_fpsps s) (Stats.avgMaxAccel_fpsps s)
       (Stats.maxBrake_fpsps s) (Stats.avgMaxBrake_fpsps s))
    (chartConf_values w) (charts w) (stats_json w).

Definition set_avgSpeed (v : float) (w : World) : World :=
  let s := stats w in
  mkWorld
    (Stats.make (Stats.individual_matches s) (Stats.maxSpeed_fps s)
       (Stats.avgMaxSpeed_fps s) (Some v) (Stats.maxAccel_fpsps s)
       (Stats.avgMaxAccel_fpsps s) (Stats.maxBrake_fpsps s)
       (Stats.avgMaxBrake_fpsps s))
    (chartConf_values w) (charts w) (stats_json w).

Definition set_maxAccel (v : float) (w : World) : World :=
  let s := stats w in
  mkWorld
    (Stats.make (Stats.individual_matches s) (Stats.maxSpeed_fps s)
       (Stats.avgMaxSpeed_fps s) (Stats.avgSpeed_fps s) (Some v)
       (Stats.avgMaxAccel_fpsps s) (Stats.maxBrake_fpsps s)
       (Stats.avgMaxBrake_fpsps s))
    (chartConf_values w) (charts w) (stats_json w).

Definition set_avgMaxAccel (v : float) (w : World) : World :=
  let s := stats w in
  mkWorld
    (Stats.make (Stats.individual_matches s) (Stats.maxSpeed_fps s)
       (Stats.avgMaxSpeed_fps s) (Stats.avgSpeed_fps s) (Stats.maxAccel_fpsps s)
       (Some v) (Stats.maxBrake_fpsps s) (Stats.avgMaxBrake_fpsps s))
    (chartConf_values w) (charts w) (stats_json w).

Definition set_maxBrake (v : float) (w : World) : World :=
  let s := stats w in
  mkWorld
    (Stats.make (Stats.individual_matches s) (Stats.maxSpeed_fps s)
       (Stats.avgMaxSpeed_fps s) (Stats.avgSpeed_fps s) (Stats.maxAccel_fpsps s)
       (Stats.avgMaxAccel_fpsps s) (Some v) (Stats.avgMaxBrake_fpsps s))
    (chartConf_values w) (charts w) (stats_json w).

Definition set_avgMaxBrake (v : float) (w : World) : World :=
  let s := stats w in
  mkWorld
    (Stats.make (Stats.individual_matches s) (Stats.maxSpeed_fps s)
       (Stats.avgMaxSpeed_fps s) (Stats.avgSpeed_fps s) (Stats.maxAccel_fpsps s)
       (Stats.avgMaxAccel_fpsps s) (Stats.maxBrake_fpsps s) (Some v))
    (chartConf_values w) (charts w) (stats_json w).

(** [stats.individual_matches.map(m => m.field)] *)
Definition column (field : MatchStats.t -> float) : M (list float) :=
  read (fun w => map field (Stats.individual_matches (stats w))).

(** [stats.individual_matches.length] *)
Definition matches_length : M float :=
  read (fun w => length_of (Stats.individual_matches (stats w))).

(** [column.reduce((a, b) => a + b)/stats.individual_matches.length] *)
Definition average (field : MatchStats.t -> float) : M float :=
  l <- column field ;;
  total <- lift (reduce PrimFloat.add l) ;;
  n <- matches_length ;;
  ret (total / n).

(** The seven assignments that follow the loop. *)
Definition global_stats : M unit :=
  l <- column MatchStats.maxSpeed_fps ;;
  update (set_maxSpeed (Math_max l)) ;;
  v <- average MatchStats.maxSpeed_fps ;;
  update (set_avgMaxSpeed v) ;;
  v <- average MatchStats.avgSpeed_fps ;;
  update (set_avgSpeed v) ;;
  l <- column MatchStats.maxAccel_fpsps ;;
  update (set_maxAccel (Math_max l)) ;;
  v <- average MatchStats.maxAccel_fpsps ;;
  update (set_avgMaxAccel v) ;;
  l <- column MatchStats.maxBrake_fpsps ;;
  update (set_maxBrake (Math_min l)) ;;
  v <- average MatchStats.maxBrake_fpsps ;;
  update (set_avgMaxBrake v).

(** [fs.writeFileSync('./stats.json', JSON.stringify(stats))] *)
Definition write_stats (w : World) : World :=
  mkWorld (stats w) (chartConf_values w) (charts w) (Some (stats w)).

(** [module.exports = (data) => { ... }] *)
Definition calculate_stats (data : list Match.t) : M unit :=
  forEach data calculate_match ;;
  global_stats ;;
  update write_stats.

End Program.

(** ** Reference data *)

(** An engine that computes square roots as the processor does, and the
    power of exponent 2, the only one the program asks for, by one
    multiplication. *)
#[export] Instance ieee_engine : Engine := {|
  Math_sqrt := PrimFloat.sqrt;
  Math_pow := fun base exponent =>
    if PrimFloat.Leibniz.eqb exponent 2 then base * base else nan
|}.

Definition sample (t x y : float) : Point.t := Point.make t (Some x) (Some y).

Definition scenario_A : list Point.t := [sample 0 0 0; sample 1 3 4; sample 2 3 4].

Definition scenario_B : list Point.t := [sample 0 0 0; sample 1 0 0; sample 2 6 8].

(** ** Views used by the statements *)

(** The sliding window of the three stages, by recursion on the array:
    one result per pair of neighbours. *)
Fixpoint adjacent {A B : Type} (g : A -> A -> B) (l : list A) : list B :=
  match l with
  | [] => []
  | a :: rest =>
      match rest with
      | [] => []
      | b :: _ => g a b :: adjacent g rest
      end
  end.

(** The shape of the callbacks of the stages: [g] of the element and its
    successor in the whole array, [undefined] when there is no successor. *)
Definition window_callback {A B : Type} (g : A -> A -> B) (arr : list A)
  (a : A) (i : nat) : option B :=
  match nth_error arr (i + 1) with
  | Some b => Some (g a b)
  | None => None
  end.

(** The objects the callbacks return for an element and its successor. *)
Definition segment_of {E : Engine} (p1 p2 : Point.t) : Distance.t :=
  Distance.make (Point.time p1)
    (round_tenths (Point.time p2 - Point.time p1))
    (Math_sqrt
       (Math_pow (ToNumber (Point.x p2) - ToNumber (Point.x p1)) 2
        + Math_pow (ToNumber (Point.y p2) - ToNumber (Point.y p1)) 2)).

Definition speed_of (dist next : Distance.t) : Speed.t :=
  Speed.make (Distance.timestamp dist)
    (round_hundredths (Distance.distance dist / Distance.time dist)).

Definition acceleration_of (s1 s2 : Speed.t) : Acceleration.t :=
  Acceleration.make (Speed.timestamp s1)
    (round_tenths (Speed.timestamp s2 - Speed.timestamp s1))
    (round_hundredths (Speed.speed s2 - Speed.speed s1)).

(** A sequence of timestamps is non-decreasing when every element is at
    most its successor. *)
Fixpoint nondecreasing (l : list float) : bool :=
  match l with
  | [] => true
  | a :: rest =>
      match rest with
      | [] => true
      | b :: _ => (a <=? b) && nondecreasing rest
      end
  end.

(** The seven global properties of [stats]. *)
Definition global_fields (s : Stats.t) : list (option float) :=
  [Stats.maxSpeed_fps s; Stats.avgMaxSpeed_fps s; Stats.avgSpeed_fps s;
   Stats.maxAccel_fpsps s; Stats.avgMaxAccel_fpsps s; Stats.maxBrake_fpsps s;
   Stats.avgMaxBrake_fpsps s].

(** The sum [x1 + ... + xn] of a non-empty column, added from the left,
    and its mean: the sum divided by the number of elements. *)
Definition sum_from (first : float) (others : list float) : float :=
  fold_left PrimFloat.add others first.

Definition mean_of (first : float) (others : list float) : float :=
  sum_from first others / length_of (first :: others).

(** The speeds and accelerations the callback of [forEach] derives for a
    match. *)
Definition match_speeds {E : Engine} (m : Match.t) : list Speed.t :=
  calculateSpeeds (calculateDistances (filteredPoints m)).

Definition match_accelerations {E : Engine} (m : Match.t) : list Acceleration.t :=
  calculateAccelerations (match_speeds m).

(** The object pushed to [stats.individual_matches] for a match whose
    speeds are [s :: ss]. *)
Definition match_entry {E : Engine} (m : Match.t) (s : Speed.t) (ss : list Speed.t)
  : MatchStats.t :=
  MatchStats.make (Match.match_ m) (Match.team m)
    (Math_max (map Speed.speed (s :: ss)))
    (Math_round
       (sum_from (Speed.speed s) (map Speed.speed ss) / length_of (s :: ss) * 100)
     / 100)
    (Math_max (map Acceleration.acceleration (match_accelerations m)))
    (Math_min (map Acceleration.acceleration (match_accelerations m))).

(** The message of the [TypeError] of [reduce]. *)
Definition reduce_of_empty : exn :=
  TypeError "Reduce of empty array with no initial value".

Definition scenario_C : list Point.t :=
  [sample 0 0 0; sample 1 3 4; sample 2 3 4; sample 3 6 8].

Definition match_C : Match.t := Match.make "2020mndu_qm2" 2052 scenario_C.

(** A match whose telemetry has one usable sample: the coordinates of
    the other one are [null]. *)
Definition match_short : Match.t :=
  Match.make "2020mndu_qm3" 2052 [sample 0 0 0; Point.make 1 None None].

(** The series projection in the words of the specification: tuples
    [{x, y, series}] labelled "speed" and "acceleration". *)
Definition series_projection (speeds : list Speed.t)
  (accelerations : list Acceleration.t) : list object :=
  (map (fun s => [("x", Num (Speed.timestamp s)); ("y", Num (Speed.speed s));
                  ("series", Str "speed")]%string) speeds
   ++ map (fun a => [("x", Num (Acceleration.timestamp a));
                     ("y", Num (Acceleration.acceleration a));
                     ("series", Str "acceleration")]%string) accelerations)%list.

(** A [stats] object with two entries whose average speeds are 0.01 and
    0.02 feet per second. *)
Definition two_slow_matches : World :=
  mkWorld
    (Stats.make
       [MatchStats.make "2020mndu_qm1" 2052 0.5 0.01 0.25 (-0.25);
        MatchStats.make "2020mndu_qm2" 2052 1 0.02 0.5 (-0.5)]
       None None None None None None None)
    [] [] None.

(** A [stats] object with the single entry of the match of scenario C. *)
Definition one_match : World :=
  mkWorld
    (Stats.make [MatchStats.make "2020mndu_qm2" 2052 5 2.5 (-5) (-5)]
       None None None None None None None)
    [] [] None.

(** The object pushed for a match, when it has a speed sample, and the
    chart handed to the renderer for it. *)
Definition summary_of {E : Engine} (m : Match.t) : option MatchStats.t :=
  match match_speeds m with
  | [] => None
  | s :: ss => Some (match_entry m s ss)
  end.

Definition chart_of {E : Engine} (m : Match.t) : string * float * list object :=
  (Match.match_ m, Match.team m,
   (speedData (match_speeds m) ++ AccelData (match_accelerations m))%list).

(** A match with exactly three usable samples, and one without any. *)
Definition match_three : Match.t :=
  Match.make "2020mndu_qm4" 2052
    [sample 0 0 0; Point.make 0.5 None (Some 1); sample 1 3 4; sample 2 3 4].

Definition match_empty : Match.t := Match.make "2020mndu_qm5" 2052 [].

(** A match whose robot did not move between two samples that carry the
    same time: the first segment has a zero distance and a zero duration. *)
Definition match_stalled : Match.t :=
  Match.make "2020mndu_qm6" 2052 [sample 0 0 0; sample 0 0 0; sample 1 3 4].

(** A [stats] object whose second entry has a NaN maximum speed and a NaN
    average speed. *)
Definition spoiled_matches : World :=
  mkWorld
    (Stats.make
       [MatchStats.make "2020mndu_qm2" 2052 5 2.5 (-5) (-5);
        MatchStats.make "2020mndu_qm6" 2052 nan nan neg_infinity infinity]
       None None None None None None None)
    [] [] None.

(** ** The acquisition: [src/get_data.js]

    The requests and the parsing of their bodies are outside the model;
    what is modelled is what the handlers do with a status code and a
    parsed body, and how the exported function collects the results of
    the fetches, in the order they arrive. *)

Module GetData.

(** An element of [body.alliances.red] or [body.alliances.blue]. *)
Module Robot.
Record t : Type := make {
  team_key : string;
  xs : list (option float);
  ys : list (option float)
}.
End Robot.

(** A parsed body of the motionworks endpoint. *)
Module Body.
Record t : Type := make {
  times : list float;
  red : list Robot.t;
  blue : list Robot.t
}.
End Body.

(** A sample as [getMotionworks] builds it: [xs[i]] and [ys[i]] are
    [undefined] ([None]) past the end of the arrays, and a number or
    [null] otherwise. *)
Module RawPoint.
Record t : Type := make {
  time : float;
  x : option (option float);
  y : option (option float)
}.
End RawPoint.

(** An element of [finalData]: [{match, team, points}], [points] being
    [null] ([None]) for a match without telemetry. *)
Module Fetched.
Record t : Type := make {
  match_ : string;
  team : float;
  points : option (list RawPoint.t)
}.
End Fetched.

(** What a promise is rejected with. *)
Inductive reason : Type :=
| Status_code (statusCode : Z)
| Syntax_error
| Thrown (e : exn)
| Request_error (message : string).

Inductive settlement (A : Type) : Type :=
| Resolve (v : A)
| Reject (r : reason).

Arguments Resolve {A} v.
Arguments Reject {A} r.

(** A promise settles once: [resolve] and [reject] do nothing on a
    settled promise. *)
Inductive promise (A : Type) : Type :=
| Pending
| Settled (s : settlement A).

Arguments Pending {A}.
Arguments Settled {A} s.

Definition settle {A : Type} (s : settlement A) (p : promise A) : promise A :=
  match p with
  | Pending => Settled s
  | Settled _ => p
  end.

(** The result of [JSON.parse(body)] in [getMotionworks]: a failure, or a
    falsy value ([None]), or the object of the endpoint. *)
Inductive parsed : Type :=
| Unparsable
| Parsed (body : option Body.t).

Section Handlers.

(** The text of a number in a template literal. *)
Variable Number_toString : float -> string.

(** [[...red.filter(...), ...blue.filter(...)]] with the test
    [element.team_key === `frc${_team}`] *)
Definition teamData (_team : float) (body : Body.t) : list Robot.t :=
  let key := ("frc" ++ Number_toString _team)%string in
  (filter (fun element => String.eqb (Robot.team_key element) key) (Body.red body)
   ++ filter (fun element => String.eqb (Robot.team_key element) key)
        (Body.blue body))%list.

(** [body.times.map((timestamp, i) => ({time, x: teamData[0].xs[i],
    y: teamData[0].ys[i]}))]: the callback throws on the first timestamp
    when [teamData[0]] is [undefined]. *)
Definition motionworks_data (_team : float) (body : Body.t)
  : completion (list RawPoint.t) :=
  match Body.times body with
  | [] => Normal []
  | _ :: _ =>
      match teamData _team body with
      | [] => Throw (TypeError "Cannot read properties of undefined (reading 'xs')")
      | robot :: _ =>
          Normal
            (Array_map
               (fun timestamp i =>
                  RawPoint.make timestamp (nth_error (Robot.xs robot) i)
                    (nth_error (Robot.ys robot) i))
               (Body.times body))
      end
  end.

(** The ['end'] handler of [getMotionworks]. *)
Definition getMotionworks (_team : float) (statusCode : Z) (body : parsed)
  : settlement (option (list RawPoint.t)) :=
  if negb (statusCode =? 200)%Z && negb (statusCode =? 404)%Z
  then Reject (Status_code statusCode)
  else
    match body with
    | Unparsable => Reject Syntax_error
    | Parsed None => Resolve None
    | Parsed (Some b) =>
        match motionworks_data _team b with
        | Normal data => Resolve (Some data)
        | Throw e => Reject (Thrown e)
        end
    end.

End Handlers.

(** The module level [finalData] and the promise the exported function
    returned. *)
Record State : Type := mkState {
  finalData : list Fetched.t;
  result : promise (list Fetched.t)
}.

(** [let finalData = []] and a new promise. *)
Definition state_init : State := mkState [] Pending.

(** [el.points !== null] *)
Definition has_points (el : Fetched.t) : bool :=
  match Fetched.points el with
  | Some _ => true
  | None => false
  end.

(** The fulfilment handler of one fetch: push the record, and resolve
    with the records that have points when the count of [finalData]
    reaches the count of keys. *)
Definition on_motionData (keys : list string) (team : float) (matchKey : string)
  (motionData : option (list RawPoint.t)) (st : State) : State :=
  let finalData' := (finalData st ++ [Fetched.make matchKey team motionData])%list in
  mkState finalData'
    (if (List.length keys =? List.length finalData')%nat
     then settle (Resolve (filter has_points finalData')) (result st)
     else result st).

(** The rejection handler of one fetch. *)
Definition on_error (r : reason) (st : State) : State :=
  mkState (finalData st) (settle (Reject r) (result st)).

(** The settlement of one fetch, as it arrives. *)
Inductive arrival : Type :=
| Arrived (matchKey : string) (s : settlement (option (list RawPoint.t))).

Definition on_arrival (keys : list string) (team : float) (a : arrival)
  (st : State) : State :=
  match a with
  | Arrived matchKey (Resolve motionData) => on_motionData keys team matchKey motionData st
  | Arrived _ (Reject r) => on_error r st
  end.

(** The exported function after [getMatches] gave [keys]: the fetches
    settle in some order. *)
Definition collect (keys : list string) (team : float) (arrivals : list arrival)
  (st : State) : State :=
  fold_left (fun st a => on_arrival keys team a st) arrivals st.

Definition fulfilled (a : arrival) : bool :=
  match a with
  | Arrived _ (Resolve _) => true
  | Arrived _ (Reject _) => false
  end.

(** The record pushed for a fulfilled fetch. *)
Definition record_of (team : float) (a : arrival) : list Fetched.t :=
  match a with
  | Arrived matchKey (Resolve motionData) => [Fetched.make matchKey team motionData]
  | Arrived _ (Reject _) => []
  end.

(** A sample whose coordinates are not [undefined] is a position sample
    of the statistics. *)
Definition to_point (p : RawPoint.t) : option Point.t :=
  match RawPoint.x p, RawPoint.y p with
  | Some x, Some y => Some (Point.make (RawPoint.time p) x y)
  | _, _ => None
  end.

Definition of_point (p : Point.t) : RawPoint.t :=
  RawPoint.make (Point.time p) (Some (Point.x p)) (Some (Point.y p)).

Fixpoint to_points (l : list RawPoint.t) : option (list Point.t) :=
  match l with
  | [] => Some []
  | p :: rest =>
      match to_point p, to_points rest with
      | Some p', Some rest' => Some (p' :: rest')
      | _, _ => None
      end
  end.


End GetData.

(** A body with two robots and three timestamps, and the text of the
    team number used with it. *)
Definition body_2052 : GetData.Body.t :=
  GetData.Body.make [0; 0.1; 0.2]
    [GetData.Robot.make "frc2052" [Some 1; None; Some 3] [Some 4; None; Some 6]]
    [GetData.Robot.make "frc2502" [Some 7; Some 8; Some 9] [Some 7; Some 8; Some 9]].

Definition toString_2052 (n : float) : string := "2052".

(** Two keys and the arrivals of their fetches: the second match has no
    telemetry and its fetch settles first. *)
Definition two_keys : list string := ["2020mndu_qm2"; "2020mndu_qm7"]%string.

Definition two_arrivals : list GetData.arrival :=
  [GetData.Arrived "2020mndu_qm7" (GetData.Resolve None);
   GetData.Arrived "2020mndu_qm2"
     (GetData.Resolve (Some (map GetData.of_point scenario_C)))].

(** ** Examples *)

Example scenario_A_distances :
  calculateDistances scenario_A = [Distance.make 0 1 5; Distance.make 1 1 0].
Proof. reflexivity. Qed.

Example scenario_A_speeds :
  calculateSpeeds (calculateDistances scenario_A) = [Speed.make 0 5].
Proof. reflexivity. Qed.

Example scenario_A_accelerations :
  calculateAccelerations (calculateSpeeds (calculateDistances scenario_A)) = [].
Proof. reflexivity. Qed.

Example scenario_B_distances :
  calculateDistances scenario_B = [Distance.make 0 1 0; Distance.make 1 1 10].
Proof. reflexivity. Qed.

Example scenario_B_speeds :
  calculateSpeeds (calculateDistances scenario_B) = [Speed.make 0 0].
Proof. reflexivity. Qed.

(** ** Facts of binary64 arithmetic *)

Lemma SFcompare_refl_finite (s : bool) (m : positive) (e : Z) :
  SFcompare (S754_finite s m e) (S754_finite s m e) = Some Eq.
Proof.
  simpl. rewrite Z.compare_refl, Pos.compare_cont_refl. now destruct s.
Qed.

Lemma is_nan_eq (x : float) : is_nan x = true -> x = nan.
Proof.
  unfold is_nan. rewrite FloatAxioms.eqb_spec. intros H.
  rewrite <- (SF2Prim_Prim2SF x).
  destruct (Prim2SF x) as [s | s | | s m e]; try reflexivity.
  - destruct s; discriminate.
  - destruct s; discriminate.
  - unfold SFeqb in H. rewrite SFcompare_refl_finite in H. discriminate.
Qed.

Lemma div_eucl_exact (a b : Z) : (0 < b)%Z -> Z.div_eucl (a * b) b = (a, 0%Z).
Proof.
  intros Hb.
  rewrite (surjective_pairing (Z.div_eucl (a * b) b)).
  change (fst (Z.div_eucl (a * b) b)) with ((a * b) / b)%Z.
  change (snd (Z.div_eucl (a * b) b)) with ((a * b) mod b)%Z.
  rewrite Z.div_mul, Z.mod_mul by lia. reflexivity.
Qed.

(** Division by one on the specification side: the quotient of the
    mantissas is exact and rounding gives the dividend back. *)
Lemma SFdiv_one (s : spec_float) :
  valid_binary s = true -> SF64div s (S754_finite false 4503599627370496 (-52)) = s.
Proof.
  destruct s as [sx | sx | | sx m e]; intros Hv.
  - simpl. now destruct sx.
  - simpl. now destruct sx.
  - reflexivity.
  - unfold valid_binary, bounded, canonical_mantissa in Hv.
    apply andb_true_iff in Hv. destruct Hv as [Hc Hb].
    apply Z.eqb_eq in Hc. apply Z.leb_le in Hb.
    unfold fexp, FloatOps.emin, SpecFloat.emin, emax, prec in Hc, Hb.
    unfold SF64div, SFdiv, SFdiv_core_binary.
    rewrite xorb_false_r.
    change (Zdigits2 4503599627370496) with 53%Z.
    change (Zdigits2 (Z.pos m)) with (Z.pos (digits2_pos m)).
    unfold fexp, FloatOps.emin, SpecFloat.emin, emax, prec.
    assert (Hcase : (e = -1074 \/ (-1074 < e /\ Z.pos (digits2_pos m) = 53))%Z) by lia.
    destruct Hcase as [He | [He Hd]].
    + replace (IntDef.Z.min
            (IntDef.Z.max (Z.pos (digits2_pos m) + e - (53 + -52) - 53) (3 - 1024 - 53))
            (e - -52))%Z with e by lia.
      replace (e - -52 - e)%Z with 52%Z by lia.
      rewrite Z.shiftl_mul_pow2 by lia.
      change (2 ^ 52)%Z with 4503599627370496%Z.
      rewrite div_eucl_exact by lia.
      change (new_location 4503599627370496 0) with loc_Exact.
      unfold binary_round_aux, shr_fexp.
      change (Zdigits2 (Z.pos m)) with (Z.pos (digits2_pos m)).
      unfold fexp, FloatOps.emin, SpecFloat.emin, emax, prec.
      rewrite Hc. rewrite Z.sub_diag.
      cbn [shr_record_of_loc shr shr_m loc_of_shr_record round_nearest_even].
      change (Zdigits2 (Z.pos m)) with (Z.pos (digits2_pos m)).
      rewrite Hc. rewrite Z.sub_diag. cbn [shr shr_m].
      replace (e <=? 1024 - 53)%Z with true by (symmetry; apply Z.leb_le; lia).
      reflexivity.
    + replace (IntDef.Z.min
            (IntDef.Z.max (Z.pos (digits2_pos m) + e - (53 + -52) - 53) (3 - 1024 - 53))
            (e - -52))%Z with (e - 1)%Z by lia.
      replace (e - -52 - (e - 1))%Z with 53%Z by lia.
      rewrite Z.shiftl_mul_pow2 by lia.
      replace (Z.pos m * 2 ^ 53)%Z with (Z.pos m~0 * 4503599627370496)%Z
        by (change (2 ^ 53)%Z with (2 * 4503599627370496)%Z; lia).
      rewrite div_eucl_exact by lia.
      change (new_location 4503599627370496 0) with loc_Exact.
      unfold binary_round_aux, shr_fexp.
      change (Zdigits2 (Z.pos m~0)) with (Z.pos (Pos.succ (digits2_pos m))).
      unfold fexp, FloatOps.emin, SpecFloat.emin, emax, prec.
      replace (IntDef.Z.max (Z.pos (Pos.succ (digits2_pos m)) + (e - 1) - 53) (3 - 1024 - 53) - (e - 1))%Z
        with 1%Z by lia.
      cbn [shr_record_of_loc shr iter_pos shr_1 shr_m loc_of_shr_record round_nearest_even].
      replace (e - 1 + 1)%Z with e by lia.
      cbn [orb round_nearest_even].
      change (Zdigits2 (Z.pos m)) with (Z.pos (digits2_pos m)).
      rewrite Hc. rewrite Z.sub_diag. cbn [shr shr_m].
      replace (e <=? 1024 - 53)%Z with true by (symmetry; apply Z.leb_le; lia).
      reflexivity.
Qed.

(** Dividing by one changes no number, NaN and the infinities included. *)
Lemma div_one (x : float) : x / 1 = x.
Proof.
  apply Prim2SF_inj. rewrite FloatAxioms.div_spec.
  change (Prim2SF 1) with (S754_finite false 4503599627370496 (-52)).
  apply SFdiv_one, Prim2SF_valid.
Qed.

Lemma not_nan_SF (x : float) : is_nan x = false -> Prim2SF x <> S754_nan.
Proof.
  unfold is_nan. rewrite FloatAxioms.eqb_spec. intros H Hx.
  rewrite Hx in H. discriminate.
Qed.

(** [Math.max(x)] and [Math.min(x)] are [x]. *)
Lemma Math_max_single (x : float) : Math_max [x] = x.
Proof.
  unfold Math_max, max_loop.
  destruct (is_nan x) eqn:Hnan.
  - symmetry. now apply is_nan_eq.
  - change (is_neg_zero neg_infinity) with false. rewrite andb_false_r.
    destruct (neg_infinity <? x) eqn:Hlt; [reflexivity |].
    apply not_nan_SF in Hnan.
    rewrite FloatAxioms.ltb_spec in Hlt.
    change (Prim2SF neg_infinity) with (S754_infinity true) in Hlt.
    rewrite <- (SF2Prim_Prim2SF x).
    destruct (Prim2SF x) as [s | s | | s m e]; try discriminate.
    + destruct s; [reflexivity | discriminate].
    + congruence.
Qed.

Lemma Math_min_single (x : float) : Math_min [x] = x.
Proof.
  unfold Math_min, min_loop.
  destruct (is_nan x) eqn:Hnan.
  - symmetry. now apply is_nan_eq.
  - change (is_pos_zero infinity) with false. rewrite andb_false_r.
    destruct (x <? infinity) eqn:Hlt; [reflexivity |].
    apply not_nan_SF in Hnan.
    rewrite FloatAxioms.ltb_spec in Hlt.
    change (Prim2SF infinity) with (S754_infinity false) in Hlt.
    rewrite <- (SF2Prim_Prim2SF x).
    destruct (Prim2SF x) as [s | s | | s m e]; try discriminate.
    + destruct s; [discriminate | reflexivity].
    + congruence.
Qed.

(** A number that compares equal to zero is one of the two zeros. *)
Lemma is_zero_SF (x : float) :
  PrimFloat.is_zero x = true -> exists s, Prim2SF x = S754_zero s.
Proof.
  unfold PrimFloat.is_zero. rewrite FloatAxioms.eqb_spec.
  change (Prim2SF zero) with (S754_zero false).
  destruct (Prim2SF x) as [s | s | | s m e]; intros H.
  - now exists s.
  - destruct s; discriminate.
  - discriminate.
  - destruct s; discriminate.
Qed.

(** The quotient by a zero is never finite: it is NaN or an infinity. *)
Lemma div_by_zero (a b : float) :
  PrimFloat.is_zero b = true ->
  a / b = nan \/ a / b = infinity \/ a / b = neg_infinity.
Proof.
  intros Hb. destruct (is_zero_SF Hb) as [sb Hsb].
  rewrite <- (SF2Prim_Prim2SF (a / b)), FloatAxioms.div_spec, Hsb.
  unfold SF64div, SFdiv.
  destruct (Prim2SF a) as [s | s | | s m e].
  - now left.
  - right. destruct (xorb s sb); [now right | now left].
  - now left.
  - right. destruct (xorb s sb); [now right | now left].
Qed.

Lemma div_by_zero_rounded (a b : float) :
  PrimFloat.is_zero b = true -> is_finite (round_hundredths (a / b)) = false.
Proof.
  intros Hb. destruct (div_by_zero a Hb) as [-> | [-> | ->]]; reflexivity.
Qed.

(** ** The stages as sliding windows *)

Section Window.

Variables A B : Type.
Variable g : A -> A -> B.

Lemma window_from (pre l : list A) :
  filter_Boolean (map_from (window_callback g (pre ++ l)) (List.length pre) l)
  = adjacent g l.
Proof.
  revert pre. induction l as [| a rest IH]; intros pre; [reflexivity |].
  cbn [map_from]. unfold window_callback at 1.
  rewrite nth_error_app2 by lia.
  replace (List.length pre + 1 - List.length pre)%nat with 1%nat by lia.
  specialize (IH (pre ++ [a])).
  rewrite <- app_assoc, length_app in IH. cbn [List.length app] in IH.
  replace (List.length pre + 1)%nat with (S (List.length pre)) in IH by lia.
  destruct rest as [| b rest']; cbn [nth_error filter_Boolean adjacent].
  - reflexivity.
  - f_equal. exact IH.
Qed.

Lemma window_adjacent (arr : list A) :
  filter_Boolean (Array_map (window_callback g arr) arr) = adjacent g arr.
Proof. exact (window_from [] arr). Qed.

Lemma adjacent_length (l : list A) :
  List.length (adjacent g l) = (List.length l - 1)%nat.
Proof.
  induction l as [| a rest IH]; [reflexivity |].
  destruct rest as [| b rest']; [reflexivity |].
  cbn [adjacent List.length] in *. lia.
Qed.

Lemma adjacent_nth (l : list A) (i : nat) :
  nth_error (adjacent g l) i
  = match nth_error l i, nth_error l (S i) with
    | Some a, Some b => Some (g a b)
    | _, _ => None
    end.
Proof.
  revert i. induction l as [| a rest IH]; intros i.
  - now destruct i.
  - destruct rest as [| b rest'].
    + destruct i as [| [| i]]; reflexivity.
    + destruct i as [| i]; [reflexivity |].
      cbn [adjacent nth_error]. rewrite IH. reflexivity.
Qed.

Lemma adjacent_short (l : list A) :
  (List.length l <= 1)%nat -> adjacent g l = [].
Proof.
  destruct l as [| a [| b rest]]; cbn [List.length]; intros H;
    [reflexivity | reflexivity | lia].
Qed.

End Window.

Lemma adjacent_nondecreasing {A B : Type} (g : A -> A -> B)
  (tin : A -> float) (tout : B -> float) :
  (forall a b, tout (g a b) = tin a) ->
  forall l, nondecreasing (map tin l) = true ->
            nondecreasing (map tout (adjacent g l)) = true.
Proof.
  intros Hg. induction l as [| a rest IH]; [reflexivity |].
  destruct rest as [| b rest']; [reflexivity |].
  intros H. cbn [map nondecreasing] in H.
  apply andb_true_iff in H. destruct H as [Hab Hrest].
  specialize (IH Hrest).
  destruct rest' as [| c rest'']; [reflexivity |].
  cbn [adjacent map nondecreasing] in *.
  rewrite !Hg in *. rewrite Hab. exact IH.
Qed.

Lemma adjacent_earlier {A B : Type} (g : A -> A -> B) (l : list A) (i : nat) (r : B) :
  nth_error (adjacent g l) i = Some r ->
  exists a b, nth_error l i = Some a /\ nth_error l (S i) = Some b /\ r = g a b.
Proof.
  rewrite adjacent_nth.
  destruct (nth_error l i) as [a |]; [| discriminate].
  destruct (nth_error l (S i)) as [b |]; [| discriminate].
  intros H. injection H as <-. now exists a, b.
Qed.

Section Stages.

Context {E : Engine}.

Lemma calculateDistances_adjacent (samples : list Point.t) :
  calculateDistances samples = adjacent segment_of samples.
Proof. exact (window_adjacent segment_of samples). Qed.

Lemma calculateSpeeds_adjacent (distances : list Distance.t) :
  calculateSpeeds distances = adjacent speed_of distances.
Proof. exact (window_adjacent speed_of distances). Qed.

Lemma calculateAccelerations_adjacent (speeds : list Speed.t) :
  calculateAccelerations speeds = adjacent acceleration_of speeds.
Proof. exact (window_adjacent acceleration_of speeds). Qed.

End Stages.

(** ** The derivation stages: what they emit *)

Section StageClaims.

Context {E : Engine}.

(** C1. For every sequence of position samples, the distance derivation
    holds at index [i] a segment exactly when both [samples[i]] and
    [samples[i+1]] exist; its timestamp is [samples[i].time], its duration
    is [samples[i+1].time - samples[i].time] rounded to one decimal and its
    distance is [sqrt((x2-x1)^2 + (y2-y1)^2)]. Nothing is emitted for the
    final index: the result has one element less than the samples. *)
Theorem calculateDistances_spec (samples : list Point.t) (i : nat) :
  nth_error (calculateDistances samples) i
  = match nth_error samples i, nth_error samples (S i) with
    | Some p1, Some p2 =>
        Some {| Distance.timestamp := Point.time p1;
                Distance.time :=
                  Math_round ((Point.time p2 - Point.time p1) * 10) / 10;
                Distance.distance :=
                  Math_sqrt
                    (Math_pow (ToNumber (Point.x p2) - ToNumber (Point.x p1)) 2
                     + Math_pow (ToNumber (Point.y p2) - ToNumber (Point.y p1)) 2) |}
    | _, _ => None
    end
  /\ nth_error (calculateDistances samples) (List.length samples - 1) = None
  /\ List.length (calculateDistances samples) = (List.length samples - 1)%nat.
Proof.
  rewrite calculateDistances_adjacent. split; [| split].
  - apply adjacent_nth.
  - apply nth_error_None. rewrite adjacent_length. lia.
  - apply adjacent_length.
Qed.

(** C2. For every sequence of distance segments, the speed derivation
    holds at index [i] a sample exactly when both [distances[i]] and
    [distances[i+1]] exist; its speed is
    [distances[i].distance / distances[i].duration] rounded to two decimals
    and its timestamp is [distances[i].timestamp]. The last segment has no
    successor and gives no sample, so the result has one element less than
    the input. *)
Theorem calculateSpeeds_spec (distances : list Distance.t) (i : nat) :
  nth_error (calculateSpeeds distances) i
  = match nth_error distances i, nth_error distances (S i) with
    | Some d1, Some _ =>
        Some {| Speed.timestamp := Distance.timestamp d1;
                Speed.speed :=
                  Math_round (Distance.distance d1 / Distance.time d1 * 100) / 100 |}
    | _, _ => None
    end
  /\ List.length (calculateSpeeds distances) = (List.length distances - 1)%nat.
Proof.
  rewrite calculateSpeeds_adjacent. split.
  - apply adjacent_nth.
  - apply adjacent_length.
Qed.

(** C3. For every position sequence of length n >= 2, the distance
    derivation returns exactly n-1 segments, the speed derivation applied
    to them exactly n-2 samples, and the acceleration derivation applied to
    those exactly n-3 samples, none when n-3 is negative. *)
Theorem derived_lengths (samples : list Point.t) :
  (2 <= List.length samples)%nat ->
  let n := Z.of_nat (List.length samples) in
  let distances := calculateDistances samples in
  let speeds := calculateSpeeds distances in
  let accelerations := calculateAccelerations speeds in
  (Z.of_nat (List.length distances) = n - 1
   /\ Z.of_nat (List.length speeds) = n - 2
   /\ Z.of_nat (List.length accelerations) = Z.max 0 (n - 3))%Z.
Proof.
  intros Hn n distances speeds accelerations.
  subst n distances speeds accelerations.
  rewrite calculateAccelerations_adjacent, calculateSpeeds_adjacent,
    calculateDistances_adjacent.
  rewrite !adjacent_length. lia.
Qed.

(** C8. For every input whose timestamps are non-decreasing, each stage
    produces a sequence whose timestamps are non-decreasing, and the
    timestamp of every output element is the timestamp of the earlier
    element of the pair of neighbours it was derived from. *)
Theorem timestamps_preserved :
  (forall samples : list Point.t,
      nondecreasing (map Point.time samples) = true ->
      nondecreasing (map Distance.timestamp (calculateDistances samples)) = true
      /\ forall i d, nth_error (calculateDistances samples) i = Some d ->
           exists p1 p2, nth_error samples i = Some p1
                         /\ nth_error samples (S i) = Some p2
                         /\ Distance.timestamp d = Point.time p1)
  /\ (forall distances : list Distance.t,
      nondecreasing (map Distance.timestamp distances) = true ->
      nondecreasing (map Speed.timestamp (calculateSpeeds distances)) = true
      /\ forall i s, nth_error (calculateSpeeds distances) i = Some s ->
           exists d1 d2, nth_error distances i = Some d1
                         /\ nth_error distances (S i) = Some d2
                         /\ Speed.timestamp s = Distance.timestamp d1)
  /\ (forall speeds : list Speed.t,
      nondecreasing (map Speed.timestamp speeds) = true ->
      nondecreasing (map Acceleration.timestamp (calculateAccelerations speeds)) = true
      /\ forall i a, nth_error (calculateAccelerations speeds) i = Some a ->
           exists s1 s2, nth_error speeds i = Some s1
                         /\ nth_error speeds (S i) = Some s2
                         /\ Acceleration.timestamp a = Speed.timestamp s1).
Proof.
  split; [| split].
  - intros samples H. rewrite calculateDistances_adjacent. split.
    + now apply adjacent_nondecreasing with (tin := Point.time).
    + intros i d Hd. apply adjacent_earlier in Hd.
      destruct Hd as (p1 & p2 & H1 & H2 & ->). now exists p1, p2.
  - intros distances H. rewrite calculateSpeeds_adjacent. split.
    + now apply adjacent_nondecreasing with (tin := Distance.timestamp).
    + intros i s Hs. apply adjacent_earlier in Hs.
      destruct Hs as (d1 & d2 & H1 & H2 & ->). now exists d1, d2.
  - intros speeds H. rewrite calculateAccelerations_adjacent. split.
    + now apply adjacent_nondecreasing with (tin := Speed.timestamp).
    + intros i a Ha. apply adjacent_earlier in Ha.
      destruct Ha as (s1 & s2 & H1 & H2 & ->). now exists s1, s2.
Qed.

(** C9. Each of the three stages returns the empty sequence on an input
    of length 0 or 1. The stages are total functions: there is no input on
    which they fail. *)
Theorem short_input_empty :
  (forall samples : list Point.t,
      (List.length samples <= 1)%nat -> calculateDistances samples = [])
  /\ (forall distances : list Distance.t,
      (List.length distances <= 1)%nat -> calculateSpeeds distances = [])
  /\ (forall speeds : list Speed.t,
      (List.length speeds <= 1)%nat -> calculateAccelerations speeds = []).
Proof.
  split; [| split]; intros l H.
  - rewrite calculateDistances_adjacent. now apply adjacent_short.
  - rewrite calculateSpeeds_adjacent. now apply adjacent_short.
  - rewrite calculateAccelerations_adjacent. now apply adjacent_short.
Qed.

End StageClaims.

(** The statements above at the samples of scenario A. *)

Lemma derived_lengths_scenario_A :
  (2 <= List.length scenario_A)%nat
  /\ (Z.of_nat (List.length (calculateDistances scenario_A)) = 3 - 1
      /\ Z.of_nat (List.length (calculateSpeeds (calculateDistances scenario_A))) = 3 - 2
      /\ Z.of_nat
           (List.length
              (calculateAccelerations
                 (calculateSpeeds (calculateDistances scenario_A))))
         = Z.max 0 (3 - 3))%Z.
Proof.
  split; [cbn; lia |].
  apply (derived_lengths (E := ieee_engine) scenario_A). cbn. lia.
Defined.

Lemma timestamps_preserved_scenario_A :
  nondecreasing (map Point.time scenario_A) = true
  /\ nondecreasing (map Distance.timestamp (calculateDistances scenario_A)) = true
  /\ nondecreasing (map Distance.timestamp [Distance.make 0 1 5; Distance.make 1 1 0]) = true
  /\ nondecreasing
       (map Speed.timestamp
          (calculateSpeeds [Distance.make 0 1 5; Distance.make 1 1 0])) = true
  /\ nondecreasing (map Speed.timestamp [Speed.make 0 5; Speed.make 1 0]) = true
  /\ nondecreasing
       (map Acceleration.timestamp
          (calculateAccelerations [Speed.make 0 5; Speed.make 1 0])) = true.
Proof.
  destruct (timestamps_preserved (E := ieee_engine)) as (Hd & Hs & Ha).
  split; [reflexivity |]. split; [apply Hd; reflexivity |].
  split; [reflexivity |]. split; [apply Hs; reflexivity |].
  split; [reflexivity |]. apply Ha; reflexivity.
Defined.

Lemma short_input_empty_one_element :
  (List.length [sample 0 0 0] <= 1)%nat
  /\ calculateDistances [sample 0 0 0] = []
  /\ (List.length [Distance.make 0 1 5] <= 1)%nat
  /\ calculateSpeeds [Distance.make 0 1 5] = []
  /\ (List.length [Speed.make 0 5] <= 1)%nat
  /\ calculateAccelerations [Speed.make 0 5] = [].
Proof.
  destruct (short_input_empty (E := ieee_engine)) as (Hd & Hs & Ha).
  split; [cbn; lia |]. split; [apply Hd; cbn; lia |].
  split; [cbn; lia |]. split; [apply Hs; cbn; lia |].
  split; [cbn; lia |]. apply Ha; cbn; lia.
Defined.

(** ** Zero durations *)

(** C6. When [distances[i]] has a duration equal to zero and a next
    segment exists, the speed derivation still emits the sample of index
    [i]: its speed is the rounded quotient by that zero, which is not a
    finite number. The case is neither skipped nor clamped. *)
Theorem zero_duration_speed (distances : list Distance.t) (i : nat)
  (d next : Distance.t) :
  nth_error distances i = Some d ->
  nth_error distances (S i) = Some next ->
  PrimFloat.is_zero (Distance.time d) = true ->
  exists s,
    nth_error (calculateSpeeds distances) i = Some s
    /\ Speed.timestamp s = Distance.timestamp d
    /\ Speed.speed s
       = Math_round (Distance.distance d / Distance.time d * 100) / 100
    /\ is_finite (Speed.speed s) = false.
Proof.
  intros Hd Hnext Hzero.
  exists (speed_of d next).
  rewrite calculateSpeeds_adjacent, adjacent_nth, Hd, Hnext.
  repeat split.
  exact (div_by_zero_rounded (Distance.distance d) Hzero).
Qed.

Lemma zero_duration_speed_example :
  nth_error [Distance.make 0 0 5; Distance.make 0 1 0] 0 = Some (Distance.make 0 0 5)
  /\ nth_error [Distance.make 0 0 5; Distance.make 0 1 0] 1 = Some (Distance.make 0 1 0)
  /\ PrimFloat.is_zero (Distance.time (Distance.make 0 0 5)) = true
  /\ exists s,
       nth_error (calculateSpeeds [Distance.make 0 0 5; Distance.make 0 1 0]) 0 = Some s
       /\ Speed.timestamp s = 0
       /\ Speed.speed s = Math_round (5 / 0 * 100) / 100
       /\ is_finite (Speed.speed s) = false.
Proof.
  split; [reflexivity |]. split; [reflexivity |]. split; [reflexivity |].
  apply (@zero_duration_speed [Distance.make 0 0 5; Distance.make 0 1 0] 0%nat
           (Distance.make 0 0 5) (Distance.make 0 1 0)); reflexivity.
Defined.

(** ** The global summary *)

Section GlobalStats.

Variable w : World.
Variable m : MatchStats.t.
Variable rest : list MatchStats.t.
Hypothesis matches_of_w : Stats.individual_matches (stats w) = m :: rest.

(** With at least one entry in [stats.individual_matches], the seven
    assignments complete and give these values. *)
Lemma global_stats_run :
  global_stats w
  = (mkWorld
       (Stats.make (m :: rest)
          (Some (Math_max (map MatchStats.maxSpeed_fps (m :: rest))))
          (Some (mean_of (MatchStats.maxSpeed_fps m) (map MatchStats.maxSpeed_fps rest)))
          (Some (mean_of (MatchStats.avgSpeed_fps m) (map MatchStats.avgSpeed_fps rest)))
          (Some (Math_max (map MatchStats.maxAccel_fpsps (m :: rest))))
          (Some (mean_of (MatchStats.maxAccel_fpsps m) (map MatchStats.maxAccel_fpsps rest)))
          (Some (Math_min (map MatchStats.maxBrake_fpsps (m :: rest))))
          (Some (mean_of (MatchStats.maxBrake_fpsps m) (map MatchStats.maxBrake_fpsps rest))))
       (chartConf_values w) (charts w) (stats_json w),
     Normal tt).
Proof.
  destruct w as [[ims f1 f2 f3 f4 f5 f6 f7] cv ch sj].
  cbn [stats Stats.individual_matches] in matches_of_w. subst ims.
  assert (Hlen : forall field : MatchStats.t -> float,
             length_of (field m :: map field rest) = length_of (m :: rest)).
  { intros field. unfold length_of. cbn [List.length]. now rewrite length_map. }
  unfold mean_of. rewrite !Hlen. reflexivity.
Qed.

End GlobalStats.

Lemma mean_of_single (x : float) : mean_of x [] = x.
Proof.
  unfold mean_of, sum_from. cbn [fold_left].
  change (length_of [x]) with 1. apply div_one.
Qed.

(** C7. When [stats.individual_matches] holds exactly one summary, the
    global summary repeats its values: the overall maximum and the average
    of the maximum speeds are its maximum speed, the average of the average
    speeds is its average speed, and likewise for its maximum acceleration
    and its maximum braking. *)
Theorem global_stats_single (w : World) (m : MatchStats.t) :
  Stats.individual_matches (stats w) = [m] ->
  exists w',
    global_stats w = (w', Normal tt)
    /\ Stats.maxSpeed_fps (stats w') = Some (MatchStats.maxSpeed_fps m)
    /\ Stats.avgMaxSpeed_fps (stats w') = Some (MatchStats.maxSpeed_fps m)
    /\ Stats.avgSpeed_fps (stats w') = Some (MatchStats.avgSpeed_fps m)
    /\ Stats.maxAccel_fpsps (stats w') = Some (MatchStats.maxAccel_fpsps m)
    /\ Stats.avgMaxAccel_fpsps (stats w') = Some (MatchStats.maxAccel_fpsps m)
    /\ Stats.maxBrake_fpsps (stats w') = Some (MatchStats.maxBrake_fpsps m)
    /\ Stats.avgMaxBrake_fpsps (stats w') = Some (MatchStats.maxBrake_fpsps m).
Proof.
  intros H. eexists. split; [exact (@global_stats_run w m [] H) |].
  cbn [stats Stats.maxSpeed_fps Stats.avgMaxSpeed_fps Stats.avgSpeed_fps
       Stats.maxAccel_fpsps Stats.avgMaxAccel_fpsps Stats.maxBrake_fpsps
       Stats.avgMaxBrake_fpsps map].
  rewrite !Math_max_single, Math_min_single, !mean_of_single.
  repeat split.
Qed.

Lemma global_stats_single_example :
  Stats.individual_matches (stats one_match)
  = [MatchStats.make "2020mndu_qm2" 2052 5 2.5 (-5) (-5)]
  /\ exists w',
       global_stats one_match = (w', Normal tt)
       /\ Stats.maxSpeed_fps (stats w') = Some 5
       /\ Stats.avgMaxSpeed_fps (stats w') = Some 5
       /\ Stats.avgSpeed_fps (stats w') = Some 2.5
       /\ Stats.maxAccel_fpsps (stats w') = Some (-5)
       /\ Stats.avgMaxAccel_fpsps (stats w') = Some (-5)
       /\ Stats.maxBrake_fpsps (stats w') = Some (-5)
       /\ Stats.avgMaxBrake_fpsps (stats w') = Some (-5).
Proof.
  split; [reflexivity |].
  apply (@global_stats_single one_match
           (MatchStats.make "2020mndu_qm2" 2052 5 2.5 (-5) (-5))).
  reflexivity.
Defined.

(** ** One match *)

Section OneMatch.

Context {E : Engine}.

Variable m : Match.t.
Variable w : World.

(** A match with at least one speed sample is summarised, pushed, and
    its chart handed to the renderer. *)
Lemma calculate_match_run (s : Speed.t) (ss : list Speed.t) :
  match_speeds m = s :: ss ->
  calculate_match m w
  = (render m
       (set_values (speedData (s :: ss) ++ AccelData (match_accelerations m))
          (push_match (match_entry m s ss) w)),
     Normal tt).
Proof.
  intros H. unfold calculate_match, match_entry, match_accelerations.
  cbv zeta. fold (match_speeds m). rewrite H. reflexivity.
Qed.

(** A match without any speed sample: [reduce] throws while the object to
    push is being built, and nothing has changed. *)
Lemma calculate_match_throw :
  match_speeds m = [] -> calculate_match m w = (w, Throw reduce_of_empty).
Proof.
  intros H. unfold calculate_match. cbv zeta. fold (match_speeds m).
  rewrite H. reflexivity.
Qed.

End OneMatch.

Section Runs.

Context {E : Engine}.

Lemma calculate_match_keeps_globals (m : Match.t) (w : World) :
  global_fields (stats (fst (calculate_match m w))) = global_fields (stats w)
  /\ stats_json (fst (calculate_match m w)) = stats_json w.
Proof.
  destruct (match_speeds m) as [| s ss] eqn:Hs.
  - rewrite (@calculate_match_throw E m w Hs). now split.
  - rewrite (@calculate_match_run E m w s ss Hs). now split.
Qed.

Lemma forEach_keeps_globals (data : list Match.t) (w : World) :
  global_fields (stats (fst (forEach data calculate_match w)))
  = global_fields (stats w)
  /\ stats_json (fst (forEach data calculate_match w)) = stats_json w.
Proof.
  revert w. induction data as [| m data IH]; intros w; [now split |].
  cbn [forEach]. unfold bind.
  destruct (calculate_match_keeps_globals m w) as [Hg Hj].
  destruct (calculate_match m w) as [w1 [[] | e]]; cbn [fst] in *.
  - destruct (IH w1) as [Hg' Hj']. split; congruence.
  - now split.
Qed.

(** The loop stops at the first match without speed samples. *)
Lemma forEach_throws (before after : list Match.t) (m : Match.t) (w : World) :
  match_speeds m = [] ->
  snd (forEach (before ++ m :: after) calculate_match w) = Throw reduce_of_empty.
Proof.
  intros Hm. revert w. induction before as [| a before IH]; intros w.
  - cbn [app forEach]. unfold bind. now rewrite (@calculate_match_throw E m w Hm).
  - cbn [app forEach]. unfold bind.
    destruct (match_speeds a) as [| s ss] eqn:Ha.
    + now rewrite (@calculate_match_throw E a w Ha).
    + rewrite (@calculate_match_run E a w s ss Ha). apply IH.
Qed.

(** Entries are pushed only for the matches that precede it. *)
Lemma forEach_entries (before after : list Match.t) (m : Match.t) (w : World) :
  match_speeds m = [] ->
  exists pushed,
    Stats.individual_matches
      (stats (fst (forEach (before ++ m :: after) calculate_match w)))
    = (Stats.individual_matches (stats w) ++ pushed)%list
    /\ (List.length pushed <= List.length before)%nat.
Proof.
  intros Hm. revert w. induction before as [| a before IH]; intros w.
  - cbn [app forEach]. unfold bind. rewrite (@calculate_match_throw E m w Hm).
    exists []. rewrite app_nil_r. now split.
  - cbn [app forEach]. unfold bind.
    destruct (match_speeds a) as [| s ss] eqn:Ha.
    + rewrite (@calculate_match_throw E a w Ha).
      exists []. rewrite app_nil_r. split; [reflexivity | cbn; lia].
    + rewrite (@calculate_match_run E a w s ss Ha).
      destruct (IH (render a
                      (set_values
                         (speedData (s :: ss) ++ AccelData (match_accelerations a))
                         (push_match (match_entry a s ss) w))))
        as (pushed & Heq & Hlen).
      exists (match_entry a s ss :: pushed). split.
      * rewrite Heq. cbn [render set_values push_match stats Stats.individual_matches].
        now rewrite <- app_assoc.
      * cbn [List.length]. lia.
Qed.

Lemma short_match_speeds (m : Match.t) :
  (List.length (filteredPoints m) < 2)%nat ->
  calculateDistances (filteredPoints m) = []
  /\ match_speeds m = [] /\ match_accelerations m = [].
Proof.
  intros H. unfold match_accelerations, match_speeds.
  rewrite calculateDistances_adjacent, (@adjacent_short _ _ segment_of) by lia.
  now repeat split.
Qed.

End Runs.

(** ** Claims on the exported function *)

(** C4, as the program has it. A match with fewer than 2 usable position
    samples yields empty distance, speed and acceleration sequences.
    Summarising it throws the [TypeError] of [reduce] on an empty array
    before anything is pushed, so the match contributes no entry to
    [stats.individual_matches]; the run stops there, whatever the other
    matches are: only matches that precede it have entries, the global
    summary properties keep the values they had and [stats.json] is not
    written. *)
Theorem short_match_stops_run {E : Engine} (m : Match.t) :
  (List.length (filteredPoints m) < 2)%nat ->
  (calculateDistances (filteredPoints m) = []
   /\ match_speeds m = [] /\ match_accelerations m = [])
  /\ (forall w, calculate_match m w = (w, Throw reduce_of_empty))
  /\ (forall before after w,
        exists w' pushed,
          calculate_stats (before ++ m :: after) w = (w', Throw reduce_of_empty)
          /\ Stats.individual_matches (stats w')
             = (Stats.individual_matches (stats w) ++ pushed)%list
          /\ (List.length pushed <= List.length before)%nat
          /\ global_fields (stats w') = global_fields (stats w)
          /\ stats_json w' = stats_json w).
Proof.
  intros Hm. destruct (short_match_speeds m Hm) as (Hd & Hs & Ha).
  split; [now repeat split |]. split.
  - intros w. now apply calculate_match_throw.
  - intros before after w.
    destruct (@forEach_entries E before after m w Hs) as (pushed & Hp & Hlen).
    exists (fst (forEach (before ++ m :: after) calculate_match w)), pushed.
    destruct (forEach_keeps_globals (before ++ m :: after) w) as [Hg Hj].
    split; [| now repeat split].
    unfold calculate_stats, bind.
    pose proof (@forEach_throws E before after m w Hs) as Ht.
    destruct (forEach (before ++ m :: after) calculate_match w) as [w1 r].
    cbn [fst snd] in *. now rewrite Ht.
Qed.

Lemma short_match_stops_run_example :
  (List.length (filteredPoints match_short) < 2)%nat
  /\ (calculateDistances (filteredPoints match_short) = []
      /\ match_speeds match_short = [] /\ match_accelerations match_short = [])
  /\ (forall w, calculate_match match_short w = (w, Throw reduce_of_empty))
  /\ (forall before after w,
        exists w' pushed,
          calculate_stats (before ++ match_short :: after) w
          = (w', Throw reduce_of_empty)
          /\ Stats.individual_matches (stats w')
             = (Stats.individual_matches (stats w) ++ pushed)%list
          /\ (List.length pushed <= List.length before)%nat
          /\ global_fields (stats w') = global_fields (stats w)
          /\ stats_json w' = stats_json w).
Proof.
  split; [cbn; lia |].
  apply (short_match_stops_run (E := ieee_engine) match_short). cbn. lia.
Defined.

(** C4, as it is stated, fails: the run over a complete match gives the
    global summary of that match, and the same run with a match of one
    usable sample added ends in a [TypeError] with no global property
    assigned and nothing written. The short match is not left out of the
    statistics; it removes them. *)
Lemma short_match_not_excluded :
  (List.length (filteredPoints match_short) < 2)%nat
  /\ calculate_stats [match_C] world_init
     = (fst (calculate_stats [match_C] world_init), Normal tt)
  /\ global_fields (stats (fst (calculate_stats [match_C] world_init)))
     = [Some 5; Some 5; Some 2.5; Some (-5); Some (-5); Some (-5); Some (-5)]
  /\ snd (calculate_stats [match_C; match_short] world_init) = Throw reduce_of_empty
  /\ global_fields (stats (fst (calculate_stats [match_C; match_short] world_init)))
     = [None; None; None; None; None; None; None]
  /\ stats_json (fst (calculate_stats [match_C; match_short] world_init)) = None
  /\ global_fields (stats (fst (calculate_stats [match_C; match_short] world_init)))
     <> global_fields (stats (fst (calculate_stats [match_C] world_init))).
Proof.
  split; [cbn; lia |]. repeat (split; [vm_compute; reflexivity |]).
  vm_compute. discriminate.
Qed.

(** C10. With at least one entry in [stats.individual_matches], each of
    the four global averages is the sum of the corresponding property of
    the entries divided by their number, and no rounding to decimals is
    applied to it; the average speed of an entry, in contrast, was rounded
    to two decimals when the entry was built. *)
Theorem global_averages_unrounded {E : Engine} :
  (forall (w : World) (m : MatchStats.t) (rest : list MatchStats.t),
      Stats.individual_matches (stats w) = m :: rest ->
      exists w',
        global_stats w = (w', Normal tt)
        /\ Stats.avgMaxSpeed_fps (stats w')
           = Some (sum_from (MatchStats.maxSpeed_fps m)
                     (map MatchStats.maxSpeed_fps rest)
                   / length_of (m :: rest))
        /\ Stats.avgSpeed_fps (stats w')
           = Some (sum_from (MatchStats.avgSpeed_fps m)
                     (map MatchStats.avgSpeed_fps rest)
                   / length_of (m :: rest))
        /\ Stats.avgMaxAccel_fpsps (stats w')
           = Some (sum_from (MatchStats.maxAccel_fpsps m)
                     (map MatchStats.maxAccel_fpsps rest)
                   / length_of (m :: rest))
        /\ Stats.avgMaxBrake_fpsps (stats w')
           = Some (sum_from (MatchStats.maxBrake_fpsps m)
                     (map MatchStats.maxBrake_fpsps rest)
                   / length_of (m :: rest)))
  /\ (forall (mt : Match.t) (w : World) (s : Speed.t) (ss : list Speed.t),
      match_speeds mt = s :: ss ->
      exists w' entry,
        calculate_match mt w = (w', Normal tt)
        /\ Stats.individual_matches (stats w')
           = Stats.individual_matches (stats w) ++ [entry]
        /\ MatchStats.avgSpeed_fps entry
           = Math_round
               (sum_from (Speed.speed s) (map Speed.speed ss)
                / length_of (s :: ss) * 100)
             / 100).
Proof.
  split.
  - intros w m rest H. eexists. split; [exact (@global_stats_run w m rest H) |].
    cbn [stats Stats.avgMaxSpeed_fps Stats.avgSpeed_fps Stats.avgMaxAccel_fpsps
         Stats.avgMaxBrake_fpsps].
    unfold mean_of.
    assert (Hlen : forall field : MatchStats.t -> float,
               length_of (field m :: map field rest) = length_of (m :: rest)).
    { intros field. unfold length_of. cbn [List.length]. now rewrite length_map. }
    rewrite !Hlen. repeat split.
  - intros mt w s ss H. eexists. exists (match_entry mt s ss).
    split; [exact (@calculate_match_run E mt w s ss H) |]. split; reflexivity.
Qed.

Lemma global_averages_unrounded_example :
  (Stats.individual_matches (stats two_slow_matches)
   = [MatchStats.make "2020mndu_qm1" 2052 0.5 0.01 0.25 (-0.25);
      MatchStats.make "2020mndu_qm2" 2052 1 0.02 0.5 (-0.5)]
   /\ exists w',
        global_stats two_slow_matches = (w', Normal tt)
        /\ Stats.avgMaxSpeed_fps (stats w') = Some ((0.5 + 1) / 2)
        /\ Stats.avgSpeed_fps (stats w') = Some ((0.01 + 0.02) / 2)
        /\ Stats.avgMaxAccel_fpsps (stats w') = Some ((0.25 + 0.5) / 2)
        /\ Stats.avgMaxBrake_fpsps (stats w') = Some ((-0.25 + -0.5) / 2))
  /\ (match_speeds match_C = [Speed.make 0 5; Speed.make 1 0]
      /\ exists w' entry,
           calculate_match match_C world_init = (w', Normal tt)
           /\ Stats.individual_matches (stats w') = [] ++ [entry]
           /\ MatchStats.avgSpeed_fps entry = Math_round ((5 + 0) / 2 * 100) / 100).
Proof.
  destruct (global_averages_unrounded (E := ieee_engine)) as [Hglobal Hmatch].
  split.
  - split; [reflexivity |].
    apply (Hglobal two_slow_matches
             (MatchStats.make "2020mndu_qm1" 2052 0.5 0.01 0.25 (-0.25))
             [MatchStats.make "2020mndu_qm2" 2052 1 0.02 0.5 (-0.5)]).
    reflexivity.
  - split; [vm_compute; reflexivity |].
    apply (Hmatch match_C world_init (Speed.make 0 5) [Speed.make 1 0]).
    vm_compute; reflexivity.
Defined.

(** The global average of the average speeds 0.01 and 0.02 is 0.015: it
    has three decimals, and rounding it to two would change it. *)
Example global_average_keeps_decimals :
  Stats.avgSpeed_fps (stats (fst (global_stats two_slow_matches))) = Some 0.015
  /\ round_hundredths 0.015 = 0.02.
Proof. split; vm_compute; reflexivity. Qed.

(** C5, as the program has it. The projection for the renderer maps each
    speed sample to the tuple [{x: timestamp, y: speed, c: 0}] and each
    acceleration sample to [{x: timestamp, y: acceleration, c: 1}], all
    speed tuples followed by all acceleration tuples, and computes nothing
    else; for every match that has a speed sample, this flat sequence is
    what is stored in the chart configuration and handed to the renderer. *)
Theorem chart_values_spec {E : Engine} :
  (forall (speeds : list Speed.t) (accelerations : list Acceleration.t),
      (speedData speeds ++ AccelData accelerations)%list
      = (map (fun s => [("x", Num (Speed.timestamp s)); ("y", Num (Speed.speed s));
                        ("c", Num 0)]%string) speeds
         ++ map (fun a => [("x", Num (Acceleration.timestamp a));
                           ("y", Num (Acceleration.acceleration a));
                           ("c", Num 1)]%string) accelerations)%list)
  /\ (forall (m : Match.t) (w : World),
      match_speeds m <> [] ->
      exists w',
        calculate_match m w = (w', Normal tt)
        /\ chartConf_values w'
           = (speedData (match_speeds m) ++ AccelData (match_accelerations m))%list
        /\ charts w'
           = (charts w ++ [(Match.match_ m, Match.team m, chartConf_values w')])%list).
Proof.
  split; [reflexivity |].
  intros m w Hs. destruct (match_speeds m) as [| s ss] eqn:H; [congruence |].
  eexists. split; [exact (@calculate_match_run E m w s ss H) |].
  split; reflexivity.
Qed.

Lemma chart_values_spec_example :
  match_speeds match_C <> []
  /\ exists w',
       calculate_match match_C world_init = (w', Normal tt)
       /\ chartConf_values w'
          = (speedData (match_speeds match_C)
             ++ AccelData (match_accelerations match_C))%list
       /\ charts w'
          = ([] ++ [("2020mndu_qm2"%string, 2052, chartConf_values w')])%list.
Proof.
  split; [vm_compute; discriminate |].
  apply (proj2 (chart_values_spec (E := ieee_engine)) match_C world_init).
  vm_compute. discriminate.
Defined.

(** C5, as it is stated, fails: the tuples of the match of scenario C
    carry the property [c] with the numbers 0 and 1, not a property
    [series] with the strings "speed" and "acceleration". *)
Lemma chart_tuples_not_series :
  chartConf_values (fst (calculate_match match_C world_init))
  = [[("x", Num 0); ("y", Num 5); ("c", Num 0)];
     [("x", Num 1); ("y", Num 0); ("c", Num 0)];
     [("x", Num 0); ("y", Num (-5)); ("c", Num 1)]]%string
  /\ series_projection (match_speeds match_C) (match_accelerations match_C)
     = [[("x", Num 0); ("y", Num 5); ("series", Str "speed")];
        [("x", Num 1); ("y", Num 0); ("series", Str "speed")];
        [("x", Num 0); ("y", Num (-5)); ("series", Str "acceleration")]]%string
  /\ chartConf_values (fst (calculate_match match_C world_init))
     <> series_projection (match_speeds match_C) (match_accelerations match_C).
Proof.
  split; [vm_compute; reflexivity |]. split; [vm_compute; reflexivity |].
  vm_compute. discriminate.
Qed.

(** * Further properties of the program *)

(** ** The order of binary64 numbers *)

Ltac compare_cases :=
  repeat match goal with
  | H : context [Z.compare ?a ?b] |- _ => destruct (Z.compare_spec a b)
  | |- context [Z.compare ?a ?b] => destruct (Z.compare_spec a b)
  | H : context [Pos.compare_cont Eq ?a ?b] |- _ =>
      change (Pos.compare_cont Eq a b) with (Pos.compare a b) in *;
      destruct (Pos.compare_spec a b)
  | |- context [Pos.compare_cont Eq ?a ?b] =>
      change (Pos.compare_cont Eq a b) with (Pos.compare a b) in *;
      destruct (Pos.compare_spec a b)
  end.

Lemma SFleb_trans (a b c : spec_float) :
  SFleb a b = true -> SFleb b c = true -> SFleb a c = true.
Proof.
  unfold SFleb.
  destruct a as [sa | sa | | sa ma ea], b as [sb | sb | | sb mb eb],
    c as [sc | sc | | sc mc ec]; cbn [SFcompare];
    try discriminate; try reflexivity;
    try (destruct sa; try discriminate; try reflexivity);
    try (destruct sb; try discriminate; try reflexivity);
    try (destruct sc; try discriminate; try reflexivity).
  all: intros H1 H2; compare_cases; cbn [CompOpp] in *; subst;
    try discriminate; try reflexivity; try lia.
Qed.

Lemma SFleb_refl (a : spec_float) : a <> S754_nan -> SFleb a a = true.
Proof.
  unfold SFleb. destruct a as [s | s | | s m e]; cbn [SFcompare]; intros H;
    try reflexivity; try congruence.
  - now destruct s.
  - rewrite Z.compare_refl, Pos.compare_cont_refl. now destruct s.
Qed.

Lemma SFleb_total (a b : spec_float) :
  a <> S754_nan -> b <> S754_nan -> SFltb a b = false -> SFleb b a = true.
Proof.
  unfold SFleb, SFltb.
  destruct a as [sa | sa | | sa ma ea], b as [sb | sb | | sb mb eb];
    cbn [SFcompare]; intros Ha Hb; try congruence;
    try (destruct sa; try discriminate; try reflexivity);
    try (destruct sb; try discriminate; try reflexivity).
  all: intros H; compare_cases; cbn [CompOpp] in *; subst;
    try discriminate; try reflexivity; try lia.
Qed.

Lemma SFltb_leb (a b : spec_float) : SFltb a b = true -> SFleb a b = true.
Proof. unfold SFltb, SFleb. now destruct (SFcompare a b) as [[]|]. Qed.

Lemma leb_trans (x y z : float) :
  (x <=? y) = true -> (y <=? z) = true -> (x <=? z) = true.
Proof. rewrite !FloatAxioms.leb_spec. apply SFleb_trans. Qed.

Lemma leb_refl (x : float) : is_nan x = false -> (x <=? x) = true.
Proof.
  intros H. rewrite FloatAxioms.leb_spec. now apply SFleb_refl, not_nan_SF.
Qed.

Lemma leb_of_not_ltb (x y : float) :
  is_nan x = false -> is_nan y = false -> (x <? y) = false -> (y <=? x) = true.
Proof.
  intros Hx Hy. rewrite FloatAxioms.ltb_spec, FloatAxioms.leb_spec.
  apply SFleb_total; now apply not_nan_SF.
Qed.

Lemma ltb_leb (x y : float) : (x <? y) = true -> (x <=? y) = true.
Proof. rewrite FloatAxioms.ltb_spec, FloatAxioms.leb_spec. apply SFltb_leb. Qed.

Lemma leb_not_nan (x y : float) :
  (x <=? y) = true -> is_nan x = false /\ is_nan y = false.
Proof.
  rewrite FloatAxioms.leb_spec. unfold is_nan.
  rewrite !FloatAxioms.eqb_spec. unfold SFleb, SFeqb.
  destruct (Prim2SF x) as [sx | sx | | sx mx ex],
    (Prim2SF y) as [sy | sy | | sy my ey]; cbn [SFcompare]; intros H;
    try discriminate; rewrite ?Z.compare_refl, ?Pos.compare_cont_refl;
    split; try reflexivity;
    repeat match goal with s : bool |- _ => destruct s end; reflexivity.
Qed.

Lemma is_pos_zero_eq (x : float) : is_pos_zero x = true -> x = zero.
Proof.
  unfold is_pos_zero. rewrite classify_spec. intros H.
  rewrite <- (SF2Prim_Prim2SF x).
  unfold SF64classify, SFclassify in H.
  destruct (Prim2SF x) as [s | s | | s m e].
  - now destruct s.
  - now destruct s.
  - discriminate.
  - destruct s; destruct (Z.eqb _ _) in H; discriminate.
Qed.

Lemma is_neg_zero_eq (x : float) : is_neg_zero x = true -> x = neg_zero.
Proof.
  unfold is_neg_zero. rewrite classify_spec. intros H.
  rewrite <- (SF2Prim_Prim2SF x).
  unfold SF64classify, SFclassify in H.
  destruct (Prim2SF x) as [s | s | | s m e].
  - now destruct s.
  - now destruct s.
  - discriminate.
  - destruct s; destruct (Z.eqb _ _) in H; discriminate.
Qed.

Lemma not_above_neg_infinity (x : float) :
  is_nan x = false -> (neg_infinity <? x) = false -> x = neg_infinity.
Proof.
  intros Hnan Hlt. apply not_nan_SF in Hnan.
  rewrite FloatAxioms.ltb_spec in Hlt.
  change (Prim2SF neg_infinity) with (S754_infinity true) in Hlt.
  rewrite <- (SF2Prim_Prim2SF x).
  destruct (Prim2SF x) as [s | s | | s m e]; try discriminate.
  - destruct s; [reflexivity | discriminate].
  - congruence.
Qed.

Lemma not_below_infinity (x : float) :
  is_nan x = false -> (x <? infinity) = false -> x = infinity.
Proof.
  intros Hnan Hlt. apply not_nan_SF in Hnan.
  rewrite FloatAxioms.ltb_spec in Hlt.
  change (Prim2SF infinity) with (S754_infinity false) in Hlt.
  rewrite <- (SF2Prim_Prim2SF x).
  destruct (Prim2SF x) as [s | s | | s m e]; try discriminate.
  - destruct s; [discriminate | reflexivity].
  - congruence.
Qed.

(** ** [Math.max] and [Math.min] *)

Lemma max_loop_member (l : list float) :
  forall highest, In (max_loop highest l) (highest :: l).
Proof.
  induction l as [| number rest IH]; intros highest; [now left |].
  cbn [max_loop].
  destruct (is_nan number) eqn:Hnan.
  - right; left. now apply is_nan_eq.
  - destruct (is_pos_zero number && is_neg_zero highest) eqn:Hzero.
    + apply andb_true_iff in Hzero. destruct Hzero as [Hz _].
      apply is_pos_zero_eq in Hz. subst number.
      right. exact (IH zero).
    + destruct (highest <? number).
      * right. exact (IH number).
      * destruct (IH highest) as [H | H]; [now left | now right; right].
Qed.

Lemma min_loop_member (l : list float) :
  forall lowest, In (min_loop lowest l) (lowest :: l).
Proof.
  induction l as [| number rest IH]; intros lowest; [now left |].
  cbn [min_loop].
  destruct (is_nan number) eqn:Hnan.
  - right; left. now apply is_nan_eq.
  - destruct (is_neg_zero number && is_pos_zero lowest) eqn:Hzero.
    + apply andb_true_iff in Hzero. destruct Hzero as [Hz _].
      apply is_neg_zero_eq in Hz. subst number.
      right. exact (IH neg_zero).
    + destruct (number <? lowest).
      * right. exact (IH number).
      * destruct (IH lowest) as [H | H]; [now left | now right; right].
Qed.

(** The result of [Math.max] on at least one argument is one of the
    arguments (NaN when one of them is NaN). *)
Lemma Math_max_member (l : list float) : l <> [] -> In (Math_max l) l.
Proof.
  destruct l as [| x rest]; [congruence | intros _].
  unfold Math_max. cbn [max_loop].
  destruct (is_nan x) eqn:Hnan; [left; now apply is_nan_eq |].
  change (is_neg_zero neg_infinity) with false. rewrite andb_false_r.
  destruct (neg_infinity <? x) eqn:Hlt.
  - apply max_loop_member.
  - rewrite <- (not_above_neg_infinity Hnan Hlt). apply max_loop_member.
Qed.

Lemma Math_min_member (l : list float) : l <> [] -> In (Math_min l) l.
Proof.
  destruct l as [| x rest]; [congruence | intros _].
  unfold Math_min. cbn [min_loop].
  destruct (is_nan x) eqn:Hnan; [left; now apply is_nan_eq |].
  change (is_pos_zero infinity) with false. rewrite andb_false_r.
  destruct (x <? infinity) eqn:Hlt.
  - apply min_loop_member.
  - rewrite <- (not_below_infinity Hnan Hlt). apply min_loop_member.
Qed.

Lemma max_loop_bound (l : list float) :
  forall highest,
    is_nan highest = false -> existsb is_nan l = false ->
    (highest <=? max_loop highest l) = true
    /\ Forall (fun x => (x <=? max_loop highest l) = true) l.
Proof.
  induction l as [| number rest IH]; intros highest Hh Hl.
  - split; [now apply leb_refl | constructor].
  - cbn [existsb] in Hl. apply orb_false_iff in Hl. destruct Hl as [Hn Hrest].
    cbn [max_loop]. rewrite Hn.
    destruct (is_pos_zero number && is_neg_zero highest) eqn:Hzero.
    + apply andb_true_iff in Hzero. destruct Hzero as [Hz Hnz].
      apply is_pos_zero_eq in Hz. apply is_neg_zero_eq in Hnz. subst.
      destruct (IH zero eq_refl Hrest) as [H0 Hall].
      split; [| now constructor].
      now apply leb_trans with (y := zero).
    + destruct (highest <? number) eqn:Hlt.
      * destruct (IH number Hn Hrest) as [H0 Hall].
        split; [| now constructor].
        apply leb_trans with (y := number); [now apply ltb_leb | exact H0].
      * destruct (IH highest Hh Hrest) as [H0 Hall].
        split; [exact H0 | constructor; [| exact Hall]].
        apply leb_trans with (y := highest); [| exact H0].
        now apply leb_of_not_ltb.
Qed.

Lemma min_loop_bound (l : list float) :
  forall lowest,
    is_nan lowest = false -> existsb is_nan l = false ->
    (min_loop lowest l <=? lowest) = true
    /\ Forall (fun x => (min_loop lowest l <=? x) = true) l.
Proof.
  induction l as [| number rest IH]; intros lowest Hh Hl.
  - split; [now apply leb_refl | constructor].
  - cbn [existsb] in Hl. apply orb_false_iff in Hl. destruct Hl as [Hn Hrest].
    cbn [min_loop]. rewrite Hn.
    destruct (is_neg_zero number && is_pos_zero lowest) eqn:Hzero.
    + apply andb_true_iff in Hzero. destruct Hzero as [Hz Hnz].
      apply is_neg_zero_eq in Hz. apply is_pos_zero_eq in Hnz. subst.
      destruct (IH neg_zero eq_refl Hrest) as [H0 Hall].
      split; [| now constructor].
      now apply leb_trans with (y := neg_zero).
    + destruct (number <? lowest) eqn:Hlt.
      * destruct (IH number Hn Hrest) as [H0 Hall].
        split; [| now constructor].
        apply leb_trans with (y := number); [exact H0 | now apply ltb_leb].
      * destruct (IH lowest Hh Hrest) as [H0 Hall].
        split; [exact H0 | constructor; [| exact Hall]].
        apply leb_trans with (y := lowest); [exact H0 |].
        now apply leb_of_not_ltb.
Qed.

Lemma max_loop_nan (l : list float) :
  forall highest, existsb is_nan l = true -> max_loop highest l = nan.
Proof.
  induction l as [| number rest IH]; intros highest H; [discriminate |].
  cbn [existsb max_loop] in *.
  destruct (is_nan number); [reflexivity |]. cbn [orb] in H.
  destruct (is_pos_zero number && is_neg_zero highest); [now apply IH |].
  destruct (highest <? number); now apply IH.
Qed.

Lemma min_loop_nan (l : list float) :
  forall lowest, existsb is_nan l = true -> min_loop lowest l = nan.
Proof.
  induction l as [| number rest IH]; intros lowest H; [discriminate |].
  cbn [existsb min_loop] in *.
  destruct (is_nan number); [reflexivity |]. cbn [orb] in H.
  destruct (is_neg_zero number && is_pos_zero lowest); [now apply IH |].
  destruct (number <? lowest); now apply IH.
Qed.

(** ** NaN in sums and quotients *)

Lemma add_nan_l (x : float) : nan + x = nan.
Proof.
  apply Prim2SF_inj. rewrite FloatAxioms.add_spec.
  change (Prim2SF nan) with S754_nan. reflexivity.
Qed.

Lemma add_nan_r (x : float) : x + nan = nan.
Proof.
  apply Prim2SF_inj. rewrite FloatAxioms.add_spec.
  change (Prim2SF nan) with S754_nan. now destruct (Prim2SF x).
Qed.

Lemma div_nan_l (x : float) : nan / x = nan.
Proof.
  apply Prim2SF_inj. rewrite FloatAxioms.div_spec.
  change (Prim2SF nan) with S754_nan. reflexivity.
Qed.

Lemma sum_nan_start (l : list float) : fold_left PrimFloat.add l nan = nan.
Proof.
  induction l as [| x rest IH]; [reflexivity |].
  cbn [fold_left]. now rewrite add_nan_l.
Qed.

Lemma sum_nan (l : list float) (start : float) :
  existsb is_nan l = true -> fold_left PrimFloat.add l start = nan.
Proof.
  revert start. induction l as [| x rest IH]; intros start H; [discriminate |].
  cbn [existsb fold_left] in *.
  destruct (is_nan x) eqn:Hx.
  - apply is_nan_eq in Hx. subst x. rewrite add_nan_r. apply sum_nan_start.
  - now apply IH.
Qed.

(** ** How many samples a match needs *)

Section Threshold.

Context {E : Engine}.

Lemma match_speeds_length (m : Match.t) :
  List.length (match_speeds m) = (List.length (filteredPoints m) - 2)%nat.
Proof.
  unfold match_speeds.
  rewrite calculateSpeeds_adjacent, calculateDistances_adjacent.
  rewrite !adjacent_length. lia.
Qed.

Lemma match_accelerations_length (m : Match.t) :
  List.length (match_accelerations m) = (List.length (filteredPoints m) - 3)%nat.
Proof.
  unfold match_accelerations.
  rewrite calculateAccelerations_adjacent, adjacent_length, match_speeds_length.
  lia.
Qed.

Lemma summary_of_some (m : Match.t) :
  (3 <= List.length (filteredPoints m))%nat -> exists e, summary_of m = Some e.
Proof.
  intros H. pose proof (match_speeds_length m) as Hl. unfold summary_of.
  destruct (match_speeds m) as [| s ss]; [cbn in Hl; lia | now eexists].
Qed.

Lemma calculate_match_summary (m : Match.t) (w : World) (e : MatchStats.t) :
  summary_of m = Some e ->
  calculate_match m w
  = (mkWorld
       (Stats.make (Stats.individual_matches (stats w) ++ [e])
          (Stats.maxSpeed_fps (stats w)) (Stats.avgMaxSpeed_fps (stats w))
          (Stats.avgSpeed_fps (stats w)) (Stats.maxAccel_fpsps (stats w))
          (Stats.avgMaxAccel_fpsps (stats w)) (Stats.maxBrake_fpsps (stats w))
          (Stats.avgMaxBrake_fpsps (stats w)))
       (snd (chart_of m)) (charts w ++ [chart_of m]) (stats_json w),
     Normal tt).
Proof.
  unfold summary_of. destruct (match_speeds m) as [| s ss] eqn:Hs; [discriminate |].
  intros H. injection H as <-.
  rewrite (@calculate_match_run E m w s ss Hs).
  unfold chart_of. rewrite Hs. reflexivity.
Qed.

(** X1. The callback of the loop completes exactly for the matches with
    at least 3 usable samples. With fewer, it throws the [TypeError] of
    [reduce] and leaves everything as it was; with 3 or more, it appends
    one entry carrying the identifiers of the match and one chart, and
    touches neither the global properties nor [stats.json]. *)
Theorem calculate_match_threshold (m : Match.t) (w : World) :
  ((List.length (filteredPoints m) < 3)%nat ->
   calculate_match m w = (w, Throw reduce_of_empty))
  /\ ((3 <= List.length (filteredPoints m))%nat ->
      exists w' entry,
        calculate_match m w = (w', Normal tt)
        /\ Stats.individual_matches (stats w')
           = (Stats.individual_matches (stats w) ++ [entry])%list
        /\ MatchStats.match_ entry = Match.match_ m
        /\ MatchStats.team entry = Match.team m
        /\ charts w'
           = (charts w ++ [(Match.match_ m, Match.team m, chartConf_values w')])%list
        /\ global_fields (stats w') = global_fields (stats w)
        /\ stats_json w' = stats_json w).
Proof.
  split; intros H.
  - apply calculate_match_throw.
    pose proof (match_speeds_length m) as Hl.
    destruct (match_speeds m); [reflexivity | cbn in Hl; lia].
  - destruct (summary_of_some m H) as [e He].
    eexists. exists e. split; [exact (calculate_match_summary m w He) |].
    unfold summary_of in He.
    destruct (match_speeds m) as [| s ss]; [discriminate |].
    injection He as <-. now repeat split.
Qed.

(** X2. A match with exactly 3 usable samples has one speed sample and no
    acceleration: its entry is pushed with a maximum acceleration of
    -Infinity and a maximum braking of +Infinity, the values of [Math.max]
    and [Math.min] without arguments, and its chart has a single tuple. *)
Theorem three_samples_entry (m : Match.t) (w : World) :
  List.length (filteredPoints m) = 3%nat ->
  exists w' entry tuple,
    calculate_match m w = (w', Normal tt)
    /\ Stats.individual_matches (stats w')
       = (Stats.individual_matches (stats w) ++ [entry])%list
    /\ MatchStats.maxAccel_fpsps entry = neg_infinity
    /\ MatchStats.maxBrake_fpsps entry = infinity
    /\ chartConf_values w' = [tuple].
Proof.
  intros H.
  pose proof (match_speeds_length m) as Hs.
  pose proof (match_accelerations_length m) as Ha.
  rewrite H in Hs, Ha. cbn in Hs, Ha.
  destruct (match_speeds m) as [| s [| s' ss]] eqn:Es; try discriminate.
  destruct (match_accelerations m) as [| a l] eqn:Ea; try discriminate.
  eexists. eexists. eexists.
  split; [exact (@calculate_match_run E m w s [] Es) |].
  cbn [render set_values push_match stats chartConf_values
       Stats.individual_matches].
  unfold match_entry. rewrite Ea. now repeat split.
Qed.

End Threshold.

Lemma calculate_match_threshold_example :
  ((List.length (filteredPoints match_short) < 3)%nat
   /\ calculate_match match_short world_init = (world_init, Throw reduce_of_empty))
  /\ ((3 <= List.length (filteredPoints match_C))%nat
      /\ exists w' entry,
           calculate_match match_C world_init = (w', Normal tt)
           /\ Stats.individual_matches (stats w') = ([] ++ [entry])%list
           /\ MatchStats.match_ entry = "2020mndu_qm2"%string
           /\ MatchStats.team entry = 2052
           /\ charts w'
              = ([] ++ [("2020mndu_qm2"%string, 2052, chartConf_values w')])%list
           /\ global_fields (stats w') = global_fields stats_init
           /\ stats_json w' = None).
Proof.
  split.
  - split; [cbn; lia |].
    apply (proj1 (calculate_match_threshold (E := ieee_engine)
                    match_short world_init)).
    cbn; lia.
  - split; [cbn; lia |].
    apply (proj2 (calculate_match_threshold (E := ieee_engine)
                    match_C world_init)).
    cbn; lia.
Defined.

Lemma three_samples_entry_example :
  List.length (filteredPoints match_three) = 3%nat
  /\ exists w' entry tuple,
       calculate_match match_three world_init = (w', Normal tt)
       /\ Stats.individual_matches (stats w') = ([] ++ [entry])%list
       /\ MatchStats.maxAccel_fpsps entry = neg_infinity
       /\ MatchStats.maxBrake_fpsps entry = infinity
       /\ chartConf_values w' = [tuple].
Proof.
  split; [reflexivity |].
  apply (three_samples_entry (E := ieee_engine) match_three world_init).
  reflexivity.
Defined.

(** ** Complete runs *)

Section CompleteRuns.

Context {E : Engine}.

Lemma forEach_summaries (data : list Match.t) :
  Forall (fun m => (3 <= List.length (filteredPoints m))%nat) data ->
  forall w,
  exists w' entries,
    forEach data calculate_match w = (w', Normal tt)
    /\ Forall2 (fun m e => summary_of m = Some e) data entries
    /\ Stats.individual_matches (stats w')
       = (Stats.individual_matches (stats w) ++ entries)%list
    /\ charts w' = (charts w ++ map chart_of data)%list
    /\ global_fields (stats w') = global_fields (stats w)
    /\ stats_json w' = stats_json w.
Proof.
  induction 1 as [| m data Hm Hdata IH]; intros w.
  - exists w, []. cbn [forEach map]. rewrite !app_nil_r.
    repeat split. constructor.
  - destruct (summary_of_some m Hm) as [e He].
    cbn [forEach]. unfold bind. rewrite (calculate_match_summary m w He).
    match goal with |- context [forEach data calculate_match ?w1] =>
      destruct (IH w1) as (w' & entries & Hrun & Hall & Him & Hch & Hg & Hj)
    end.
    exists w', (e :: entries). rewrite Hrun.
    split; [reflexivity |]. split; [now constructor |].
    cbn [stats Stats.individual_matches charts stats_json] in Him, Hch, Hj.
    rewrite Him, Hch, Hg, Hj, <- !app_assoc. now repeat split.
Qed.

(** A run over matches that all have at least 3 usable samples. *)
Lemma calculate_stats_run (data : list Match.t) (w : World) :
  Forall (fun m => (3 <= List.length (filteredPoints m))%nat) data ->
  (0 < List.length (Stats.individual_matches (stats w)) + List.length data)%nat ->
  exists w' entries,
    calculate_stats data w = (w', Normal tt)
    /\ Forall2 (fun m e => summary_of m = Some e) data entries
    /\ Stats.individual_matches (stats w')
       = (Stats.individual_matches (stats w) ++ entries)%list
    /\ charts w' = (charts w ++ map chart_of data)%list
    /\ Stats.maxSpeed_fps (stats w')
       = Some (Math_max (map MatchStats.maxSpeed_fps
                           (Stats.individual_matches (stats w'))))
    /\ Stats.maxAccel_fpsps (stats w')
       = Some (Math_max (map MatchStats.maxAccel_fpsps
                           (Stats.individual_matches (stats w'))))
    /\ Stats.maxBrake_fpsps (stats w')
       = Some (Math_min (map MatchStats.maxBrake_fpsps
                           (Stats.individual_matches (stats w'))))
    /\ Forall (fun field => field <> None) (global_fields (stats w'))
    /\ stats_json w' = Some (stats w').
Proof.
  intros Hdata Hpos.
  destruct (forEach_summaries Hdata w)
    as (w1 & entries & Hrun & Hall & Him & Hch & _ & _).
  assert (Hne : exists m rest, Stats.individual_matches (stats w1) = m :: rest).
  { rewrite Him. pose proof (Forall2_length Hall) as Hlen.
    destruct (Stats.individual_matches (stats w) ++ entries)%list as [| m rest] eqn:Hl.
    - apply (f_equal (@List.length _)) in Hl. rewrite length_app in Hl.
      cbn in Hl. lia.
    - now exists m, rest. }
  destruct Hne as (m & rest & Hm).
  eexists. exists entries. split.
  - unfold calculate_stats, bind. rewrite Hrun.
    rewrite (@global_stats_run w1 m rest Hm). reflexivity.
  - cbn [write_stats stats charts stats_json Stats.individual_matches
         Stats.maxSpeed_fps Stats.maxAccel_fpsps Stats.maxBrake_fpsps
         global_fields Stats.avgMaxSpeed_fps Stats.avgSpeed_fps
         Stats.avgMaxAccel_fpsps Stats.avgMaxBrake_fpsps].
    rewrite <- Hm, <- Him. repeat split; try assumption.
    repeat constructor; discriminate.
Qed.

(** X3. When every match of the data has at least 3 usable samples, and
    there is at least one match or an entry left by an earlier call, the
    exported function completes: it appends one entry per match, in the
    order of the data, and hands one chart per match to the renderer;
    the three global extremes are [Math.max] and [Math.min] over all
    entries, the earlier ones included; the seven global properties are
    assigned, and [stats.json] holds the final [stats] object. *)
Theorem calculate_stats_completes (data : list Match.t) (w : World) :
  Forall (fun m => (3 <= List.length (filteredPoints m))%nat) data ->
  (0 < List.length (Stats.individual_matches (stats w)) + List.length data)%nat ->
  exists w' entries,
    calculate_stats data w = (w', Normal tt)
    /\ Forall2 (fun m e => summary_of m = Some e) data entries
    /\ Stats.individual_matches (stats w')
       = (Stats.individual_matches (stats w) ++ entries)%list
    /\ charts w' = (charts w ++ map chart_of data)%list
    /\ Stats.maxSpeed_fps (stats w')
       = Some (Math_max (map MatchStats.maxSpeed_fps
                           (Stats.individual_matches (stats w'))))
    /\ Stats.maxAccel_fpsps (stats w')
       = Some (Math_max (map MatchStats.maxAccel_fpsps
                           (Stats.individual_matches (stats w'))))
    /\ Stats.maxBrake_fpsps (stats w')
       = Some (Math_min (map MatchStats.maxBrake_fpsps
                           (Stats.individual_matches (stats w'))))
    /\ Forall (fun field => field <> None) (global_fields (stats w'))
    /\ stats_json w' = Some (stats w').
Proof. apply calculate_stats_run. Qed.

(** X4. Called without any match while [stats] has no entry, the exported
    function assigns -Infinity to [stats.maxSpeed_fps] and then throws the
    [TypeError] of [reduce]: the six other global properties are not
    assigned and [stats.json] is not written. *)
Theorem calculate_stats_no_matches (w : World) :
  Stats.individual_matches (stats w) = [] ->
  exists w',
    calculate_stats [] w = (w', Throw reduce_of_empty)
    /\ Stats.individual_matches (stats w') = []
    /\ global_fields (stats w')
       = Some neg_infinity :: tl (global_fields (stats w))
    /\ charts w' = charts w
    /\ stats_json w' = stats_json w.
Proof.
  intros H. destruct w as [[ims f1 f2 f3 f4 f5 f6 f7] cv ch sj].
  cbn [stats Stats.individual_matches] in H. subst ims.
  eexists. split; [reflexivity |]. now repeat split.
Qed.

End CompleteRuns.

Lemma calculate_stats_completes_example :
  Forall (fun m => (3 <= List.length (filteredPoints m))%nat) [match_C; match_three]
  /\ (0 < List.length (Stats.individual_matches (stats world_init))
          + List.length [match_C; match_three])%nat
  /\ exists w' entries,
       calculate_stats [match_C; match_three] world_init = (w', Normal tt)
       /\ Forall2 (fun m e => summary_of m = Some e) [match_C; match_three] entries
       /\ Stats.individual_matches (stats w') = ([] ++ entries)%list
       /\ charts w' = ([] ++ map chart_of [match_C; match_three])%list
       /\ Stats.maxSpeed_fps (stats w')
          = Some (Math_max (map MatchStats.maxSpeed_fps
                              (Stats.individual_matches (stats w'))))
       /\ Stats.maxAccel_fpsps (stats w')
          = Some (Math_max (map MatchStats.maxAccel_fpsps
                              (Stats.individual_matches (stats w'))))
       /\ Stats.maxBrake_fpsps (stats w')
          = Some (Math_min (map MatchStats.maxBrake_fpsps
                              (Stats.individual_matches (stats w'))))
       /\ Forall (fun field => field <> None) (global_fields (stats w'))
       /\ stats_json w' = Some (stats w').
Proof.
  assert (H : Forall (fun m => (3 <= List.length (filteredPoints m))%nat)
                [match_C; match_three]).
  { repeat constructor; cbn; lia. }
  split; [exact H |]. split; [cbn; lia |].
  apply (@calculate_stats_completes ieee_engine [match_C; match_three] world_init H).
  cbn; lia.
Defined.

Lemma calculate_stats_no_matches_example :
  Stats.individual_matches (stats world_init) = []
  /\ exists w',
       calculate_stats [] world_init = (w', Throw reduce_of_empty)
       /\ Stats.individual_matches (stats w') = []
       /\ global_fields (stats w')
          = Some neg_infinity :: tl (global_fields (stats world_init))
       /\ charts w' = charts world_init
       /\ stats_json w' = stats_json world_init.
Proof.
  split; [reflexivity |].
  apply (calculate_stats_no_matches (E := ieee_engine) world_init). reflexivity.
Defined.

(** ** The extremes and the averages of a summary *)

Lemma sqrt_sign (x : float) :
  is_nan (PrimFloat.sqrt x) = true \/ (0 <=? PrimFloat.sqrt x) = true.
Proof.
  destruct (is_nan (PrimFloat.sqrt x)) eqn:Hnan; [now left | right].
  apply not_nan_SF in Hnan.
  rewrite FloatAxioms.leb_spec, FloatAxioms.sqrt_spec.
  rewrite FloatAxioms.sqrt_spec in Hnan.
  change (Prim2SF 0) with (S754_zero false).
  unfold SF64sqrt, SFsqrt in *.
  destruct (Prim2SF x) as [s | s | | s m e].
  - reflexivity.
  - destruct s; [congruence | reflexivity].
  - congruence.
  - destruct s; [congruence |].
    destruct (SFsqrt_core_binary prec emax (Z.pos m) e) as [[mz ez] lz].
    unfold binary_round_aux in *.
    destruct (shr_fexp prec emax mz ez lz) as [mrs' e'].
    destruct (shr_fexp prec emax _ e' loc_Exact) as [mrs'' e''].
    destruct (shr_m mrs'') as [| p | p]; [reflexivity | | congruence].
    destruct (e'' <=? emax - prec)%Z; reflexivity.
Qed.

Section Summaries.

Context {E : Engine}.

Variable m : Match.t.
Variable e : MatchStats.t.
Hypothesis summary_of_m : summary_of m = Some e.

Lemma summary_fields :
  match_speeds m <> []
  /\ MatchStats.maxSpeed_fps e = Math_max (map Speed.speed (match_speeds m))
  /\ MatchStats.maxAccel_fpsps e
     = Math_max (map Acceleration.acceleration (match_accelerations m))
  /\ MatchStats.maxBrake_fpsps e
     = Math_min (map Acceleration.acceleration (match_accelerations m))
  /\ exists s ss,
       match_speeds m = s :: ss
       /\ MatchStats.avgSpeed_fps e
          = Math_round
              (sum_from (Speed.speed s) (map Speed.speed ss)
               / length_of (s :: ss) * 100)
            / 100.
Proof.
  unfold summary_of in summary_of_m.
  destruct (match_speeds m) as [| s ss]; [discriminate |].
  injection summary_of_m as <-.
  split; [discriminate |]. repeat split. now exists s, ss.
Qed.

(** X5. The maximum speed of a summary is the speed of one of the speed
    samples of the match; when the match has accelerations, its maximum
    acceleration and its maximum braking are the accelerations of two of
    its acceleration samples. *)
Theorem summary_extremes_are_samples :
  In (MatchStats.maxSpeed_fps e) (map Speed.speed (match_speeds m))
  /\ (match_accelerations m <> [] ->
      In (MatchStats.maxAccel_fpsps e)
        (map Acceleration.acceleration (match_accelerations m))
      /\ In (MatchStats.maxBrake_fpsps e)
           (map Acceleration.acceleration (match_accelerations m))).
Proof.
  destruct summary_fields as (Hs & -> & -> & -> & _). split.
  - apply Math_max_member. now destruct (match_speeds m).
  - intros Ha.
    assert (map Acceleration.acceleration (match_accelerations m) <> [])
      by now destruct (match_accelerations m).
    split; [now apply Math_max_member | now apply Math_min_member].
Qed.

(** X6. When no speed of the match is NaN, no speed sample exceeds the
    maximum speed of its summary; when no acceleration is NaN, every
    acceleration sample lies between the maximum braking and the maximum
    acceleration. *)
Theorem summary_extremes_bound :
  (existsb is_nan (map Speed.speed (match_speeds m)) = false ->
   Forall (fun s => (Speed.speed s <=? MatchStats.maxSpeed_fps e) = true)
     (match_speeds m))
  /\ (existsb is_nan (map Acceleration.acceleration (match_accelerations m)) = false ->
      Forall (fun a =>
                (MatchStats.maxBrake_fpsps e <=? Acceleration.acceleration a) = true
                /\ (Acceleration.acceleration a <=? MatchStats.maxAccel_fpsps e) = true)
        (match_accelerations m)).
Proof.
  destruct summary_fields as (_ & -> & -> & -> & _). split; intros Hnan.
  - destruct (@max_loop_bound _ neg_infinity eq_refl Hnan) as [_ Hall].
    rewrite Forall_map in Hall. exact Hall.
  - destruct (@max_loop_bound _ neg_infinity eq_refl Hnan) as [_ Hmax].
    destruct (@min_loop_bound _ infinity eq_refl Hnan) as [_ Hmin].
    rewrite Forall_map in Hmax, Hmin.
    rewrite Forall_forall in *. intros a Ha. split; [now apply Hmin | now apply Hmax].
Qed.

(** X7. One NaN among the speeds of a match makes both the maximum speed
    and the average speed of its summary NaN. *)
Theorem nan_speed_spoils_summary :
  existsb is_nan (map Speed.speed (match_speeds m)) = true ->
  MatchStats.maxSpeed_fps e = nan /\ MatchStats.avgSpeed_fps e = nan.
Proof.
  intros Hnan.
  destruct summary_fields as (_ & Hmax & _ & _ & s & ss & Hs & Havg).
  split.
  - rewrite Hmax. now apply max_loop_nan.
  - rewrite Havg. rewrite Hs in Hnan. cbn [map existsb] in Hnan.
    assert (Hsum : sum_from (Speed.speed s) (map Speed.speed ss) = nan).
    { unfold sum_from. destruct (is_nan (Speed.speed s)) eqn:H1.
      - apply is_nan_eq in H1. rewrite H1. apply sum_nan_start.
      - now apply sum_nan. }
    rewrite Hsum, div_nan_l. reflexivity.
Qed.

End Summaries.

(** X8. With [Math.sqrt] the square root of the processor, the distance
    of every derived segment is NaN or at least zero, whatever [Math.pow]
    returns. *)
Theorem distances_not_negative {E : Engine} (samples : list Point.t) :
  (forall v, Math_sqrt v = PrimFloat.sqrt v) ->
  Forall (fun d => is_nan (Distance.distance d) = true
                   \/ (0 <=? Distance.distance d) = true)
    (calculateDistances samples).
Proof.
  intros Hsqrt. rewrite Forall_forall. intros d Hd.
  apply In_nth_error in Hd. destruct Hd as [i Hi].
  rewrite calculateDistances_adjacent in Hi.
  apply adjacent_earlier in Hi. destruct Hi as (p1 & p2 & _ & _ & ->).
  cbn [segment_of Distance.distance]. rewrite Hsqrt. apply sqrt_sign.
Qed.

Lemma distances_not_negative_example :
  (forall v, Math_sqrt (Engine := ieee_engine) v = PrimFloat.sqrt v)
  /\ Forall (fun d => is_nan (Distance.distance d) = true
                      \/ (0 <=? Distance.distance d) = true)
       (calculateDistances scenario_C).
Proof.
  split; [reflexivity |].
  apply (distances_not_negative (E := ieee_engine) scenario_C). reflexivity.
Defined.

Lemma summary_extremes_are_samples_example :
  summary_of match_C = Some (MatchStats.make "2020mndu_qm2" 2052 5 2.5 (-5) (-5))
  /\ In 5 (map Speed.speed (match_speeds match_C))
  /\ (match_accelerations match_C <> [] ->
      In (-5) (map Acceleration.acceleration (match_accelerations match_C))
      /\ In (-5) (map Acceleration.acceleration (match_accelerations match_C))).
Proof.
  assert (H : summary_of match_C
              = Some (MatchStats.make "2020mndu_qm2" 2052 5 2.5 (-5) (-5)))
    by (vm_compute; reflexivity).
  split; [exact H |].
  exact (@summary_extremes_are_samples ieee_engine match_C _ H).
Defined.

Lemma summary_extremes_bound_example :
  summary_of match_C = Some (MatchStats.make "2020mndu_qm2" 2052 5 2.5 (-5) (-5))
  /\ existsb is_nan (map Speed.speed (match_speeds match_C)) = false
  /\ Forall (fun s => (Speed.speed s <=? 5) = true) (match_speeds match_C)
  /\ existsb is_nan (map Acceleration.acceleration (match_accelerations match_C))
     = false
  /\ Forall (fun a => (-5 <=? Acceleration.acceleration a) = true
                      /\ (Acceleration.acceleration a <=? -5) = true)
       (match_accelerations match_C).
Proof.
  assert (H : summary_of match_C
              = Some (MatchStats.make "2020mndu_qm2" 2052 5 2.5 (-5) (-5)))
    by (vm_compute; reflexivity).
  destruct (@summary_extremes_bound ieee_engine match_C _ H) as [Hs Ha].
  split; [exact H |].
  split; [vm_compute; reflexivity |]. split; [apply Hs; vm_compute; reflexivity |].
  split; [vm_compute; reflexivity |]. apply Ha; vm_compute; reflexivity.
Defined.

Lemma nan_speed_spoils_summary_example :
  summary_of match_stalled
  = Some (MatchStats.make "2020mndu_qm6" 2052 nan nan neg_infinity infinity)
  /\ existsb is_nan (map Speed.speed (match_speeds match_stalled)) = true
  /\ MatchStats.maxSpeed_fps
       (MatchStats.make "2020mndu_qm6" 2052 nan nan neg_infinity infinity) = nan
  /\ MatchStats.avgSpeed_fps
       (MatchStats.make "2020mndu_qm6" 2052 nan nan neg_infinity infinity) = nan.
Proof.
  assert (H : summary_of match_stalled
              = Some (MatchStats.make "2020mndu_qm6" 2052 nan nan
                        neg_infinity infinity))
    by (vm_compute; reflexivity).
  split; [exact H |]. split; [vm_compute; reflexivity |].
  apply (@nan_speed_spoils_summary ieee_engine match_stalled _ H).
  vm_compute; reflexivity.
Defined.

(** X9. A NaN among the maximum speeds of the entries makes the global
    maximum speed and the global average of the maximum speeds NaN; a NaN
    among their average speeds makes the global average speed NaN. *)
Theorem nan_entry_spoils_global (w : World) (m : MatchStats.t)
  (rest : list MatchStats.t) :
  Stats.individual_matches (stats w) = m :: rest ->
  (existsb is_nan (map MatchStats.maxSpeed_fps (m :: rest)) = true ->
   Stats.maxSpeed_fps (stats (fst (global_stats w))) = Some nan
   /\ Stats.avgMaxSpeed_fps (stats (fst (global_stats w))) = Some nan)
  /\ (existsb is_nan (map MatchStats.avgSpeed_fps (m :: rest)) = true ->
      Stats.avgSpeed_fps (stats (fst (global_stats w))) = Some nan).
Proof.
  intros H. rewrite (@global_stats_run w m rest H).
  cbn [fst stats Stats.maxSpeed_fps Stats.avgMaxSpeed_fps Stats.avgSpeed_fps].
  assert (Hmean : forall field : MatchStats.t -> float,
             existsb is_nan (map field (m :: rest)) = true ->
             mean_of (field m) (map field rest) = nan).
  { intros field Hnan. unfold mean_of, sum_from. cbn [map existsb] in Hnan.
    destruct (is_nan (field m)) eqn:H1.
    - apply is_nan_eq in H1. rewrite H1, sum_nan_start. apply div_nan_l.
    - rewrite (sum_nan _ _ Hnan). apply div_nan_l. }
  split.
  - intros Hnan. split; [| now rewrite Hmean].
    f_equal. now apply max_loop_nan.
  - intros Hnan. now rewrite Hmean.
Qed.

Lemma nan_entry_spoils_global_example :
  Stats.individual_matches (stats spoiled_matches)
  = [MatchStats.make "2020mndu_qm2" 2052 5 2.5 (-5) (-5);
     MatchStats.make "2020mndu_qm6" 2052 nan nan neg_infinity infinity]
  /\ (existsb is_nan [5; nan] = true
      /\ Stats.maxSpeed_fps (stats (fst (global_stats spoiled_matches))) = Some nan
      /\ Stats.avgMaxSpeed_fps (stats (fst (global_stats spoiled_matches))) = Some nan)
  /\ (existsb is_nan [2.5; nan] = true
      /\ Stats.avgSpeed_fps (stats (fst (global_stats spoiled_matches))) = Some nan).
Proof.
  destruct (@nan_entry_spoils_global spoiled_matches
              (MatchStats.make "2020mndu_qm2" 2052 5 2.5 (-5) (-5))
              [MatchStats.make "2020mndu_qm6" 2052 nan nan neg_infinity infinity]
              eq_refl) as [Hmax Havg].
  split; [reflexivity |]. split.
  - split; [reflexivity | apply Hmax; reflexivity].
  - split; [reflexivity | apply Havg; reflexivity].
Defined.

(** ** The acquisition *)

Lemma map_from_nth {A B : Type} (f : A -> nat -> B) (l : list A) :
  forall k i,
    nth_error (map_from f k l) i
    = match nth_error l i with
      | Some a => Some (f a (k + i)%nat)
      | None => None
      end.
Proof.
  induction l as [| a rest IH]; intros k i.
  - now destruct i.
  - destruct i as [| i]; cbn [map_from nth_error].
    + now rewrite Nat.add_0_r.
    + rewrite IH. now replace (S k + i)%nat with (k + S i)%nat by lia.
Qed.

Lemma map_from_map {A B C : Type} (f : A -> nat -> B) (h : B -> C) (g : A -> C)
  (l : list A) :
  (forall a i, h (f a i) = g a) ->
  forall k, map h (map_from f k l) = map g l.
Proof.
  intros H. induction l as [| a rest IH]; intros k; [reflexivity |].
  cbn [map_from map]. now rewrite H, IH.
Qed.

Lemma skipn_nth {A : Type} (l : list A) :
  forall k v, nth_error l k = Some v -> skipn k l = v :: skipn (S k) l.
Proof.
  induction l as [| a rest IH]; intros k v H; [now destruct k |].
  destruct k as [| k]; cbn [nth_error] in H.
  - now injection H as ->.
  - cbn [skipn]. now apply IH.
Qed.

Lemma to_points_of_point (points : list Point.t) :
  GetData.to_points (map GetData.of_point points) = Some points.
Proof.
  induction points as [| p rest IH]; [reflexivity |].
  cbn [map GetData.to_points]. rewrite IH. now destruct p.
Qed.

(** Samples built from timestamps and coordinate arrays that cover them. *)
Lemma samples_defined (xs ys : list (option float)) (ts : list float) :
  forall k,
    (k + List.length ts <= List.length xs)%nat ->
    (k + List.length ts <= List.length ys)%nat ->
    exists points,
      map_from
        (fun timestamp i =>
           GetData.RawPoint.make timestamp (nth_error xs i) (nth_error ys i))
        k ts
      = map GetData.of_point points
      /\ GetData.to_points (map GetData.of_point points) = Some points
      /\ map Point.time points = ts
      /\ map Point.x points = firstn (List.length ts) (skipn k xs)
      /\ map Point.y points = firstn (List.length ts) (skipn k ys).
Proof.
  induction ts as [| t rest IH]; intros k Hx Hy.
  - exists []. now repeat split.
  - cbn [List.length] in Hx, Hy.
    destruct (nth_error xs k) as [vx |] eqn:Ex;
      [| apply nth_error_None in Ex; lia].
    destruct (nth_error ys k) as [vy |] eqn:Ey;
      [| apply nth_error_None in Ey; lia].
    destruct (IH (S k)) as (points & Hmap & _ & Ht & Hpx & Hpy); [lia | lia |].
    exists (Point.make t vx vy :: points).
    split; [| split; [apply to_points_of_point | split; [| split]]].
    + cbn [map_from map]. rewrite Hmap, Ex, Ey. reflexivity.
    + cbn [map Point.time]. now rewrite Ht.
    + rewrite (skipn_nth _ _ Ex). cbn [map List.length firstn Point.x].
      now rewrite Hpx.
    + rewrite (skipn_nth _ _ Ey). cbn [map List.length firstn Point.y].
      now rewrite Hpy.
Qed.

Section Motionworks.

Variable Number_toString : float -> string.
Variable _team : float.

(** X10. Whenever [getMotionworks] resolves with samples, the status was
    200 or 404 and the body was parsed; the samples carry the timestamps
    of the body, one sample per timestamp and in their order; and, unless
    there is no timestamp, they carry at each index the coordinates that
    the first robot with the key of the team, red alliance first, has at
    that index. *)
Theorem getMotionworks_samples (statusCode : Z) (body : GetData.parsed)
  (data : list GetData.RawPoint.t) :
  GetData.getMotionworks Number_toString _team statusCode body
  = GetData.Resolve (Some data) ->
  (statusCode = 200 \/ statusCode = 404)%Z
  /\ exists b,
       body = GetData.Parsed (Some b)
       /\ map GetData.RawPoint.time data = GetData.Body.times b
       /\ (GetData.Body.times b <> [] ->
           exists robot others,
             GetData.teamData Number_toString _team b = robot :: others
             /\ forall i,
                  nth_error data i
                  = match nth_error (GetData.Body.times b) i with
                    | Some t =>
                        Some (GetData.RawPoint.make t
                                (nth_error (GetData.Robot.xs robot) i)
                                (nth_error (GetData.Robot.ys robot) i))
                    | None => None
                    end).
Proof.
  unfold GetData.getMotionworks. intros Hres.
  assert (Hstatus : (statusCode = 200 \/ statusCode = 404)%Z
                    /\ negb (statusCode =? 200)%Z && negb (statusCode =? 404)%Z = false).
  { destruct (statusCode =? 200)%Z eqn:H200; destruct (statusCode =? 404)%Z eqn:H404;
      cbn [negb andb] in *; try discriminate;
      (split; [| reflexivity]);
      first [left; now apply Z.eqb_eq | right; now apply Z.eqb_eq]. }
  destruct Hstatus as [Hcode Hs]. rewrite Hs in Hres. split; [exact Hcode |].
  destruct body as [| [b |]]; try discriminate.
  exists b. split; [reflexivity |].
  unfold GetData.motionworks_data in Hres.
  destruct (GetData.Body.times b) as [| t ts] eqn:Ht.
  - injection Hres as <-. split; [reflexivity | congruence].
  - destruct (GetData.teamData Number_toString _team b) as [| robot others];
      [discriminate |].
    injection Hres as <-. split.
    + unfold Array_map. rewrite <- (map_id (t :: ts)) at 2.
      apply map_from_map. reflexivity.
    + intros _. exists robot, others. split; [reflexivity |].
      intros i. unfold Array_map. now rewrite map_from_nth.
Qed.

(** X11. A parsed body that has timestamps but no robot with the key of
    the team, in either alliance, does not resolve: the fetch is rejected
    with the [TypeError] thrown while the first sample is built. Without
    any timestamp the same body resolves with no sample. *)
Theorem getMotionworks_team_absent (statusCode : Z) (b : GetData.Body.t) :
  (statusCode = 200 \/ statusCode = 404)%Z ->
  GetData.teamData Number_toString _team b = [] ->
  (GetData.Body.times b <> [] ->
   exists e,
     GetData.getMotionworks Number_toString _team statusCode
       (GetData.Parsed (Some b))
     = GetData.Reject (GetData.Thrown e))
  /\ (GetData.Body.times b = [] ->
      GetData.getMotionworks Number_toString _team statusCode
        (GetData.Parsed (Some b))
      = GetData.Resolve (Some [])).
Proof.
  intros Hstatus Hteam. unfold GetData.getMotionworks, GetData.motionworks_data.
  rewrite Hteam.
  assert (Hs : negb (statusCode =? 200)%Z && negb (statusCode =? 404)%Z = false).
  { destruct Hstatus as [-> | ->]; reflexivity. }
  rewrite Hs. split; intros Ht.
  - destruct (GetData.Body.times b); [congruence | now eexists].
  - now rewrite Ht.
Qed.

(** X12. When the coordinate arrays of the robot are at least as long as
    the timestamps, no sample has an [undefined] coordinate: the samples
    are position samples of the statistics, with the timestamps of the
    body and the leading coordinates of the robot. *)
Theorem getMotionworks_points (b : GetData.Body.t) (robot : GetData.Robot.t)
  (others : list GetData.Robot.t) :
  GetData.teamData Number_toString _team b = robot :: others ->
  (List.length (GetData.Body.times b) <= List.length (GetData.Robot.xs robot))%nat ->
  (List.length (GetData.Body.times b) <= List.length (GetData.Robot.ys robot))%nat ->
  exists points,
    GetData.getMotionworks Number_toString _team 200 (GetData.Parsed (Some b))
    = GetData.Resolve (Some (map GetData.of_point points))
    /\ GetData.to_points (map GetData.of_point points) = Some points
    /\ map Point.time points = GetData.Body.times b
    /\ map Point.x points
       = firstn (List.length (GetData.Body.times b)) (GetData.Robot.xs robot)
    /\ map Point.y points
       = firstn (List.length (GetData.Body.times b)) (GetData.Robot.ys robot).
Proof.
  intros Hteam Hx Hy.
  destruct (@samples_defined (GetData.Robot.xs robot) (GetData.Robot.ys robot)
              (GetData.Body.times b) 0%nat)
    as (points & Hmap & Hto & Ht & Hpx & Hpy); [cbn; lia | cbn; lia |].
  exists points. cbn [skipn] in Hpx, Hpy.
  split; [| now repeat split].
  unfold GetData.getMotionworks, GetData.motionworks_data. cbn [negb andb Z.eqb].
  rewrite Hteam. unfold Array_map. rewrite <- Hmap.
  now destruct (GetData.Body.times b).
Qed.

End Motionworks.

Lemma getMotionworks_samples_example :
  GetData.getMotionworks toString_2052 2052 200 (GetData.Parsed (Some body_2052))
  = GetData.Resolve
      (Some [GetData.RawPoint.make 0 (Some (Some 1)) (Some (Some 4));
             GetData.RawPoint.make 0.1 (Some None) (Some None);
             GetData.RawPoint.make 0.2 (Some (Some 3)) (Some (Some 6))])
  /\ (200 = 200 \/ 200 = 404)%Z
  /\ exists b,
       GetData.Parsed (Some body_2052) = GetData.Parsed (Some b)
       /\ map GetData.RawPoint.time
            [GetData.RawPoint.make 0 (Some (Some 1)) (Some (Some 4));
             GetData.RawPoint.make 0.1 (Some None) (Some None);
             GetData.RawPoint.make 0.2 (Some (Some 3)) (Some (Some 6))]
          = GetData.Body.times b
       /\ (GetData.Body.times b <> [] ->
           exists robot others,
             GetData.teamData toString_2052 2052 b = robot :: others
             /\ forall i,
                  nth_error
                    [GetData.RawPoint.make 0 (Some (Some 1)) (Some (Some 4));
                     GetData.RawPoint.make 0.1 (Some None) (Some None);
                     GetData.RawPoint.make 0.2 (Some (Some 3)) (Some (Some 6))] i
                  = match nth_error (GetData.Body.times b) i with
                    | Some t =>
                        Some (GetData.RawPoint.make t
                                (nth_error (GetData.Robot.xs robot) i)
                                (nth_error (GetData.Robot.ys robot) i))
                    | None => None
                    end).
Proof.
  assert (H : GetData.getMotionworks toString_2052 2052 200
                (GetData.Parsed (Some body_2052))
              = GetData.Resolve
                  (Some [GetData.RawPoint.make 0 (Some (Some 1)) (Some (Some 4));
                         GetData.RawPoint.make 0.1 (Some None) (Some None);
                         GetData.RawPoint.make 0.2 (Some (Some 3)) (Some (Some 6))]))
    by (vm_compute; reflexivity).
  split; [exact H |].
  exact (@getMotionworks_samples toString_2052 2052 200 _ _ H).
Defined.

Lemma getMotionworks_team_absent_example :
  (404 = 200 \/ 404 = 404)%Z
  /\ GetData.teamData (fun _ => "4607"%string) 4607 body_2052 = []
  /\ (GetData.Body.times body_2052 <> [] ->
      exists e,
        GetData.getMotionworks (fun _ => "4607"%string) 4607 404
          (GetData.Parsed (Some body_2052))
        = GetData.Reject (GetData.Thrown e))
  /\ (GetData.Body.times body_2052 = [] ->
      GetData.getMotionworks (fun _ => "4607"%string) 4607 404
        (GetData.Parsed (Some body_2052))
      = GetData.Resolve (Some [])).
Proof.
  split; [now right |]. split; [reflexivity |].
  apply (@getMotionworks_team_absent (fun _ => "4607"%string) 4607 404 body_2052);
    [now right | reflexivity].
Defined.

Lemma getMotionworks_points_example :
  GetData.teamData toString_2052 2052 body_2052
  = [GetData.Robot.make "frc2052" [Some 1; None; Some 3] [Some 4; None; Some 6]]
  /\ (List.length (GetData.Body.times body_2052) <= 3)%nat
  /\ exists points,
       GetData.getMotionworks toString_2052 2052 200
         (GetData.Parsed (Some body_2052))
       = GetData.Resolve (Some (map GetData.of_point points))
       /\ GetData.to_points (map GetData.of_point points) = Some points
       /\ map Point.time points = GetData.Body.times body_2052
       /\ map Point.x points = firstn 3 [Some 1; None; Some 3]
       /\ map Point.y points = firstn 3 [Some 4; None; Some 6].
Proof.
  split; [reflexivity |]. split; [cbn; lia |].
  apply (@getMotionworks_points toString_2052 2052 body_2052
           (GetData.Robot.make "frc2052" [Some 1; None; Some 3]
              [Some 4; None; Some 6]) []);
    [reflexivity | cbn; lia | cbn; lia].
Defined.

(** ** Collecting the fetches *)

Section Collect.

Variable keys : list string.
Variable team : float.

Lemma collect_app (before after : list GetData.arrival) (st : GetData.State) :
  GetData.collect keys team (before ++ after) st
  = GetData.collect keys team after (GetData.collect keys team before st).
Proof. unfold GetData.collect. apply fold_left_app. Qed.

Lemma collect_cons (a : GetData.arrival) (rest : list GetData.arrival)
  (st : GetData.State) :
  GetData.collect keys team (a :: rest) st
  = GetData.collect keys team rest (GetData.on_arrival keys team a st).
Proof. reflexivity. Qed.

Lemma collect_finalData (arrivals : list GetData.arrival) :
  forall st,
    GetData.finalData (GetData.collect keys team arrivals st)
    = (GetData.finalData st ++ flat_map (GetData.record_of team) arrivals)%list.
Proof.
  induction arrivals as [| [matchKey [motionData | r]] rest IH]; intros st.
  - cbn. now rewrite app_nil_r.
  - rewrite collect_cons, IH.
    cbn [GetData.on_arrival GetData.on_motionData GetData.finalData flat_map
         GetData.record_of].
    now rewrite <- app_assoc.
  - rewrite collect_cons, IH. reflexivity.
Qed.

Lemma collect_settled (arrivals : list GetData.arrival) :
  forall st s,
    GetData.result st = GetData.Settled s ->
    GetData.result (GetData.collect keys team arrivals st) = GetData.Settled s.
Proof.
  induction arrivals as [| [matchKey [motionData | r]] rest IH]; intros st s H.
  - exact H.
  - rewrite collect_cons. apply IH.
    cbn [GetData.on_arrival GetData.on_motionData GetData.result].
    rewrite H. now destruct (_ =? _)%nat.
  - rewrite collect_cons. apply IH.
    cbn [GetData.on_arrival GetData.on_error GetData.result]. now rewrite H.
Qed.

Lemma collect_unchanged (arrivals : list GetData.arrival) :
  forall st,
    Forall (fun a => GetData.fulfilled a = true) arrivals ->
    (List.length keys <= List.length (GetData.finalData st)
     \/ List.length (GetData.finalData st) + List.length arrivals
        < List.length keys)%nat ->
    GetData.result (GetData.collect keys team arrivals st) = GetData.result st.
Proof.
  induction arrivals as [| [matchKey [motionData | r]] rest IH]; intros st Hall Hn.
  - reflexivity.
  - inversion Hall as [| a l _ Hrest]; subst.
    rewrite collect_cons, IH; [| exact Hrest |].
    + cbn [GetData.on_arrival GetData.on_motionData GetData.result].
      rewrite length_app. cbn [List.length].
      replace (List.length keys =? List.length (GetData.finalData st) + 1)%nat
        with false; [reflexivity |].
      symmetry. apply Nat.eqb_neq. cbn [List.length] in Hn. lia.
    + cbn [GetData.on_arrival GetData.on_motionData GetData.finalData].
      rewrite length_app. cbn [List.length] in *. lia.
  - inversion Hall as [| a l Hbad _]; subst. discriminate.
Qed.

(** X13. While the promise is pending, it is resolved by the fulfilment
    that brings the count of [finalData] to the count of keys, and not
    before: the value is the records with telemetry among those collected
    so far, entries left in [finalData] by an earlier call included, in
    the order the fetches arrived. *)
Theorem collect_resolves_at_count (arrivals : list GetData.arrival)
  (st : GetData.State) :
  GetData.result st = GetData.Pending ->
  Forall (fun a => GetData.fulfilled a = true) arrivals ->
  arrivals <> [] ->
  (List.length (GetData.finalData st) + List.length arrivals
   = List.length keys)%nat ->
  GetData.result (GetData.collect keys team arrivals st)
  = GetData.Settled
      (GetData.Resolve
         (filter GetData.has_points
            (GetData.finalData st ++ flat_map (GetData.record_of team) arrivals)))
  /\ forall before after,
       arrivals = (before ++ after)%list -> after <> [] ->
       GetData.result (GetData.collect keys team before st) = GetData.Pending.
Proof.
  intros Hpending Hall Hne Hcount. split.
  - destruct (exists_last Hne) as (before & [matchKey s] & ->).
    apply Forall_app in Hall. destruct Hall as [Hbefore Hlast].
    inversion Hlast as [| a l Hs _]; subst.
    destruct s as [motionData | r]; [| discriminate].
    rewrite length_app in Hcount. cbn [List.length] in Hcount.
    rewrite collect_app, collect_cons. cbn [GetData.collect fold_left GetData.on_arrival].
    unfold GetData.on_motionData.
    rewrite collect_unchanged by (try assumption; right; lia).
    rewrite collect_finalData, Hpending.
    cbn [GetData.result].
    rewrite flat_map_app. cbn [flat_map GetData.record_of]. rewrite app_nil_r.
    rewrite !length_app. cbn [List.length].
    replace (List.length keys
             =? List.length (GetData.finalData st)
                + List.length (flat_map (GetData.record_of team) before) + 1)%nat
      with true.
    + cbn [GetData.settle]. now rewrite <- app_assoc.
    + symmetry. apply Nat.eqb_eq.
      assert (Hlen : List.length (flat_map (GetData.record_of team) before)
                     = List.length before).
      { clear - Hbefore. induction Hbefore as [| [k [d | r]] l Hf _ IH];
          [reflexivity | | discriminate].
        cbn [flat_map GetData.record_of app List.length]. now rewrite IH. }
      lia.
  - intros before after -> Hafter.
    apply Forall_app in Hall. destruct Hall as [Hbefore _].
    rewrite collect_unchanged; [exact Hpending | exact Hbefore |].
    right. rewrite length_app in Hcount.
    destruct after; [congruence | cbn [List.length] in Hcount; lia].
Qed.

(** X14. A fetch that is rejected before the count of keys is reached
    rejects the promise with its reason, whatever arrives afterwards. *)
Theorem collect_first_rejection (before after : list GetData.arrival)
  (matchKey : string) (r : GetData.reason) (st : GetData.State) :
  GetData.result st = GetData.Pending ->
  Forall (fun a => GetData.fulfilled a = true) before ->
  (List.length (GetData.finalData st) + List.length before < List.length keys)%nat ->
  GetData.result
    (GetData.collect keys team
       (before ++ GetData.Arrived matchKey (GetData.Reject r) :: after) st)
  = GetData.Settled (GetData.Reject r).
Proof.
  intros Hpending Hbefore Hcount.
  rewrite collect_app, collect_cons.
  apply collect_settled. cbn [GetData.on_arrival]. cbn [GetData.on_error GetData.result].
  rewrite collect_unchanged by (try assumption; now right).
  now rewrite Hpending.
Qed.

(** X15. When [finalData] already holds as many records as there are
    keys, or more, fulfilments never resolve the promise: the count never
    equals the count of keys again. This is the case of an empty list of
    keys, and of a second call after a first one with as many matches. *)
Theorem collect_never_resolves (arrivals : list GetData.arrival)
  (st : GetData.State) :
  (List.length keys <= List.length (GetData.finalData st))%nat ->
  Forall (fun a => GetData.fulfilled a = true) arrivals ->
  GetData.result (GetData.collect keys team arrivals st) = GetData.result st.
Proof. intros Hn Hall. apply collect_unchanged; [exact Hall | now left]. Qed.

End Collect.

Section Resolved.

Variable keys : list string.
Variable team : float.

(** The value of a resolved promise, by induction on the arrivals. *)
Lemma collect_resolved_prefix (arrivals : list GetData.arrival) :
  forall (st : GetData.State) (data : list GetData.Fetched.t),
    GetData.result st = GetData.Pending ->
    GetData.result (GetData.collect keys team arrivals st)
    = GetData.Settled (GetData.Resolve data) ->
    data
    = filter GetData.has_points
        (firstn (List.length keys)
           (GetData.finalData (GetData.collect keys team arrivals st)))
    /\ Forall (fun el => GetData.Fetched.points el <> None) data.
Proof.
  induction arrivals as [| [matchKey [motionData | r]] rest IH];
    intros st data Hpending Hres.
  - cbn in Hres. congruence.
  - rewrite collect_cons in *. cbn [GetData.on_arrival] in *.
    destruct (List.length keys
              =? List.length (GetData.finalData st
                                ++ [GetData.Fetched.make matchKey team motionData]))%nat
      eqn:Hcount.
    + assert (Hst : GetData.result
                      (GetData.on_motionData keys team matchKey motionData st)
                    = GetData.Settled
                        (GetData.Resolve
                           (filter GetData.has_points
                              (GetData.finalData st
                               ++ [GetData.Fetched.make matchKey team motionData])))).
      { unfold GetData.on_motionData. cbn [GetData.result].
        now rewrite Hcount, Hpending. }
      rewrite (collect_settled keys team rest _ Hst) in Hres.
      injection Hres as <-. apply Nat.eqb_eq in Hcount.
      rewrite collect_finalData. cbn [GetData.on_motionData GetData.finalData].
      rewrite Hcount, firstn_app, firstn_all, Nat.sub_diag, firstn_O, app_nil_r.
      split; [reflexivity |].
      apply Forall_forall. intros el Hel. apply filter_In in Hel.
      destruct Hel as [_ Hel]. unfold GetData.has_points in Hel.
      now destruct (GetData.Fetched.points el).
    + apply IH; [| exact Hres].
      unfold GetData.on_motionData. cbn [GetData.result]. now rewrite Hcount.
  - rewrite collect_cons in Hres. cbn [GetData.on_arrival] in Hres.
    rewrite (@collect_settled keys team rest (GetData.on_error r st)
               (GetData.Reject r)) in Hres; [discriminate |].
    unfold GetData.on_error. cbn [GetData.result]. now rewrite Hpending.
Qed.

(** X16. Whatever the arrivals are, a promise that was pending and is
    resolved holds the records with telemetry among the first records of
    [finalData], as many as there are keys: no record of the value has
    [null] points, and records pushed after the count was reached are not
    part of it. *)
Theorem collect_resolved_data (arrivals : list GetData.arrival) :
  forall (st : GetData.State) (data : list GetData.Fetched.t),
    GetData.result st = GetData.Pending ->
    GetData.result (GetData.collect keys team arrivals st)
    = GetData.Settled (GetData.Resolve data) ->
    data
    = filter GetData.has_points
        (firstn (List.length keys)
           (GetData.finalData (GetData.collect keys team arrivals st)))
    /\ Forall (fun el => GetData.Fetched.points el <> None) data.
Proof. apply collect_resolved_prefix. Qed.

End Resolved.




(** The statements on the collection at the two keys. *)

Lemma collect_resolves_at_count_example :
  GetData.result GetData.state_init = GetData.Pending
  /\ Forall (fun a => GetData.fulfilled a = true) two_arrivals
  /\ two_arrivals <> []
  /\ (List.length (GetData.finalData GetData.state_init) + List.length two_arrivals
      = List.length two_keys)%nat
  /\ GetData.result (GetData.collect two_keys 2052 two_arrivals GetData.state_init)
     = GetData.Settled
         (GetData.Resolve
            (filter GetData.has_points
               ([] ++ flat_map (GetData.record_of 2052) two_arrivals)))
  /\ forall before after,
       two_arrivals = (before ++ after)%list -> after <> [] ->
       GetData.result (GetData.collect two_keys 2052 before GetData.state_init)
       = GetData.Pending.
Proof.
  assert (Hall : Forall (fun a => GetData.fulfilled a = true) two_arrivals)
    by (repeat constructor).
  assert (Hne : two_arrivals <> []) by discriminate.
  split; [reflexivity |]. split; [exact Hall |]. split; [exact Hne |].
  split; [reflexivity |].
  exact (@collect_resolves_at_count two_keys 2052 two_arrivals GetData.state_init
           eq_refl Hall Hne eq_refl).
Defined.

Lemma collect_first_rejection_example :
  GetData.result GetData.state_init = GetData.Pending
  /\ Forall (fun a => GetData.fulfilled a = true)
       [GetData.Arrived "2020mndu_qm7" (GetData.Resolve None)]
  /\ (List.length (GetData.finalData GetData.state_init) + 1 < List.length two_keys)%nat
  /\ GetData.result
       (GetData.collect two_keys 2052
          ([GetData.Arrived "2020mndu_qm7" (GetData.Resolve None)]
           ++ GetData.Arrived "2020mndu_qm2" (GetData.Reject (GetData.Status_code 500))
              :: [])
          GetData.state_init)
     = GetData.Settled (GetData.Reject (GetData.Status_code 500)).
Proof.
  assert (Hall : Forall (fun a => GetData.fulfilled a = true)
                   [GetData.Arrived "2020mndu_qm7" (GetData.Resolve None)])
    by (repeat constructor).
  split; [reflexivity |]. split; [exact Hall |]. split; [cbn; lia |].
  apply (@collect_first_rejection two_keys 2052
           [GetData.Arrived "2020mndu_qm7" (GetData.Resolve None)] []
           "2020mndu_qm2"%string (GetData.Status_code 500) GetData.state_init
           eq_refl Hall).
  cbn; lia.
Defined.

Lemma collect_never_resolves_example :
  (List.length (@nil string) <= List.length (GetData.finalData GetData.state_init))%nat
  /\ Forall (fun a => GetData.fulfilled a = true) two_arrivals
  /\ GetData.result (GetData.collect [] 2052 two_arrivals GetData.state_init)
     = GetData.Pending.
Proof.
  assert (Hall : Forall (fun a => GetData.fulfilled a = true) two_arrivals)
    by (repeat constructor).
  split; [cbn; lia |]. split; [exact Hall |].
  apply (@collect_never_resolves [] 2052 two_arrivals GetData.state_init);
    [cbn; lia | exact Hall].
Defined.

Lemma collect_resolved_data_example :
  GetData.result GetData.state_init = GetData.Pending
  /\ GetData.result (GetData.collect two_keys 2052 two_arrivals GetData.state_init)
     = GetData.Settled
         (GetData.Resolve
            [GetData.Fetched.make "2020mndu_qm2" 2052
               (Some (map GetData.of_point scenario_C))])
  /\ [GetData.Fetched.make "2020mndu_qm2" 2052
        (Some (map GetData.of_point scenario_C))]
     = filter GetData.has_points
         (firstn (List.length two_keys)
            (GetData.finalData
               (GetData.collect two_keys 2052 two_arrivals GetData.state_init)))
  /\ Forall (fun el => GetData.Fetched.points el <> None)
       [GetData.Fetched.make "2020mndu_qm2" 2052
          (Some (map GetData.of_point scenario_C))].
Proof.
  assert (H : GetData.result
                (GetData.collect two_keys 2052 two_arrivals GetData.state_init)
              = GetData.Settled
                  (GetData.Resolve
                     [GetData.Fetched.make "2020mndu_qm2" 2052
                        (Some (map GetData.of_point scenario_C))]))
    by reflexivity.
  split; [reflexivity |]. split; [exact H |].
  exact (@collect_resolved_data two_keys 2052 two_arrivals GetData.state_init _
           eq_refl H).
Defined.

